(** * ElectronBonder: a shallow embedding of [electronbonder/client.py]
    and of its older variant [electronbonder/client/web_client.py]

    The client wraps a [requests.Session]: it prefixes every URL with the
    configured [baseurl], authenticates by password or OAuth2, and flattens a
    paged list endpoint into a generator.  Python values are embedded as
    [pyval], exceptions as [exn], and the client's methods as functions in a
    state-and-exception monad over the session's default headers, the
    network behind the session and the list of requests handed to it.

    The code that is not part of the repository (requests, urllib.parse,
    json, oauthlib, the [repr] of strings and floats) is the interface
    [Libs]; every definition and theorem is stated for an arbitrary
    instance of it. *)

From Stdlib Require Import ZArith List String Ascii Bool Lia DecimalString Floats.
From stdpp Require Import base gmap strings.
Import ListNotations.

Local Open Scope Z_scope.
Local Open Scope list_scope.

Set Warnings "-register-all".

(** ** Python values *)

(** What [json.loads] returns and what travels in keyword arguments.  A
    [PDict] lists its items in insertion order, keys distinct, as a Python
    [dict] keeps them.  Strings are sequences of one-byte characters. *)
Inductive pyval : Type :=
| PNone
| PBool (b : bool)
| PInt (z : Z)
| PFloat (f : float)
| PStr (s : string)
| PList (l : list pyval)
| PDict (kvs : list (string * pyval)).

(** ** Dictionaries with string keys, in insertion order *)

Section Dict.
Context {V : Type}.

Fixpoint dict_get (k : string) (d : list (string * V)) : option V :=
  match d with
  | [] => None
  | (k', v) :: d' => if String.eqb k k' then Some v else dict_get k d'
  end.

(** [k in d] *)
Definition dict_contains (k : string) (d : list (string * V)) : bool :=
  match dict_get k d with Some _ => true | None => false end.

(** [d[k] = v]: an existing key keeps its place, a new one goes last. *)
Fixpoint dict_set (k : string) (v : V) (d : list (string * V)) : list (string * V) :=
  match d with
  | [] => [(k, v)]
  | (k', v') :: d' =>
      if String.eqb k k' then (k, v) :: d' else (k', v') :: dict_set k v d'
  end.

(** [del d[k]] for a key that is present: the key is gone, the other
    items keep their order. *)
Fixpoint dict_del (k : string) (d : list (string * V)) : list (string * V) :=
  match d with
  | [] => []
  | (k', v') :: d' =>
      if String.eqb k k' then dict_del k d' else (k', v') :: dict_del k d'
  end.

(** [d.update] with the items of [other] as keyword arguments. *)
Definition dict_update (d other : list (string * V)) : list (string * V) :=
  fold_left (fun acc kv => dict_set (fst kv) (snd kv) acc) other d.
End Dict.

(** ** Strings *)

Fixpoint char_in (c : ascii) (chars : string) : bool :=
  match chars with
  | EmptyString => false
  | String c' rest => if Ascii.eqb c c' then true else char_in c rest
  end.

(** [s.lstrip(chars)]: drops every leading character that occurs in [chars]. *)
Fixpoint lstrip (chars s : string) : string :=
  match s with
  | EmptyString => EmptyString
  | String c s' => if char_in c chars then lstrip chars s' else s
  end.

(** [s.rstrip(chars)]: drops every trailing character that occurs in [chars]. *)
Fixpoint rstrip (chars s : string) : string :=
  match s with
  | EmptyString => EmptyString
  | String c s' =>
      match rstrip chars s' with
      | EmptyString => if char_in c chars then EmptyString else String c EmptyString
      | t => String c t
      end
  end.

(** [sep.join(parts)] *)
Fixpoint str_join (sep : string) (parts : list string) : string :=
  match parts with
  | [] => EmptyString
  | [x] => x
  | x :: rest => x +:+ sep +:+ str_join sep rest
  end.

Fixpoint str_forallb (f : ascii -> bool) (s : string) : bool :=
  match s with
  | EmptyString => true
  | String c s' => f c && str_forallb f s'
  end.

Definition first_char (s : string) : option ascii :=
  match s with
  | EmptyString => None
  | String c _ => Some c
  end.

Fixpoint last_char (s : string) : option ascii :=
  match s with
  | EmptyString => None
  | String c EmptyString => Some c
  | String _ s' => last_char s'
  end.

(** [str(n)] for an [int]. *)
Definition str_int (z : Z) : string := NilZero.string_of_int (Z.to_int z).

(** The one-character strings a [str] iterates over. *)
Fixpoint str_chars (s : string) : list string :=
  match s with
  | EmptyString => []
  | String c s' => String c EmptyString :: str_chars s'
  end.

(** ** Exceptions *)

(** [ElectronBondAuthError] and [ElectronBondReturnError] are the two classes
    client.py defines, both subclasses of [Exception].  [LibException] is any
    other subclass of [Exception] (a [requests] connection error, a
    [ValueError], ...); [BaseOnly] is a [BaseException] that is not an
    [Exception] ([KeyboardInterrupt], [SystemExit]). *)
Inductive exn_class : Type :=
| ElectronBondAuthError
| ElectronBondReturnError
| KeyError
| TypeError
| AttributeError
| LibException (name : string)
| BaseOnly (name : string).

(** An exception: its class and [str(e)]. *)
Record exn : Type := Exn { exn_cls : exn_class; exn_str : string }.

(** [isinstance(e, Exception)], what [except Exception] tests. *)
Definition isinstance_Exception (e : exn) : bool :=
  match exn_cls e with BaseOnly _ => false | _ => true end.

(** A bare [except:] catches everything. *)
Definition bare_except (e : exn) : bool := true.

Inductive result (A : Type) : Type :=
| Ok (a : A)
| Raise (e : exn).
Arguments Ok {A} a.
Arguments Raise {A} e.

(** [KeyError(k)]: its [str] is the [repr] of the key, which for the keys
    the client uses (letters, digits, [_]) is the key in single quotes. *)
Definition KeyError_of (k : string) : exn := Exn KeyError ("'" +:+ k +:+ "'").

(** ** Operations on values *)

(** Truth value of an object, as [not x] and [if x] take it. *)
Definition truthy (v : pyval) : bool :=
  match v with
  | PNone => false
  | PBool b => b
  | PInt z => negb (z =? 0)
  | PFloat f => negb (PrimFloat.eqb f 0%float)
  | PStr s => negb (String.eqb s EmptyString)
  | PList l => match l with [] => false | _ => true end
  | PDict kvs => match kvs with [] => false | _ => true end
  end.

(** [v[k]] for a string key [k]: only a [dict] can be subscripted by a
    string; a missing key is a [KeyError].  Of the [TypeError]s and
    [AttributeError]s the interpreter raises, here and below, the class is
    what the client depends on; the message is abridged. *)
Definition py_getitem (v : pyval) (k : string) : result pyval :=
  match v with
  | PDict kvs =>
      match dict_get k kvs with
      | Some x => Ok x
      | None => Raise (KeyError_of k)
      end
  | PList _ => Raise (Exn TypeError "list indices must be integers or slices, not str")
  | PStr _ => Raise (Exn TypeError "string indices must be integers, not 'str'")
  | _ => Raise (Exn TypeError "object is not subscriptable")
  end.

(** [v.get(k)]: the value or [None]; only a [dict] has the method. *)
Definition py_get (v : pyval) (k : string) : result pyval :=
  match v with
  | PDict kvs =>
      match dict_get k kvs with
      | Some x => Ok x
      | None => Ok PNone
      end
  | _ => Raise (Exn AttributeError "object has no attribute 'get'")
  end.

(** The items of a sized iterable: [len(v)] is their number and
    [for obj in v] visits them in this order.  A [str] gives its characters,
    a [dict] its keys; numbers, booleans and [None] have no [len]. *)
Definition py_items (v : pyval) : result (list pyval) :=
  match v with
  | PList l => Ok l
  | PStr s => Ok (map PStr (str_chars s))
  | PDict kvs => Ok (map (fun kv => PStr (fst kv)) kvs)
  | _ => Raise (Exn TypeError "object has no len()")
  end.

(** [v += 1] *)
Definition py_iadd1 (v : pyval) : result pyval :=
  match v with
  | PInt z => Ok (PInt (z + 1))
  | PBool b => Ok (PInt (Z.b2z b + 1))
  | PFloat f => Ok (PFloat (f + 1)%float)
  | _ => Raise (Exn TypeError "unsupported operand type(s) for +=")
  end.

(** [d[k]] on a dictionary held in a local variable. *)
Definition dict_getitem (d : list (string * pyval)) (k : string) : result pyval :=
  match dict_get k d with
  | Some x => Ok x
  | None => Raise (KeyError_of k)
  end.

(** ** The session and what is behind it *)

(** One call of a [requests.Session] verb method: the verb, the URL, the
    positional and keyword arguments as they are at the moment of the call,
    and the session's default headers in force at the call. *)
Record Request : Type := mkRequest {
  req_meth : string;
  req_url : string;
  req_args : list pyval;
  req_kwargs : list (string * pyval);
  req_headers : gmap string string
}.

Record Response : Type := mkResponse {
  status_code : Z;
  text : string
}.

(** The six components [urllib.parse.urlparse] returns. *)
Record ParseResult : Type := mkParseResult {
  scheme : string;
  netloc : string;
  path : string;
  params : string;
  query : string;
  fragment : string
}.

(** The libraries the client calls.  [World] is the state of the network
    and of the servers; [session_send] is a verb method of the session with
    its mounted retry adapters: it answers or raises, and moves the world.
    It reads the session's default headers and does not write them.
    [urlparse] and [json_loads] may raise ([ValueError] on a malformed
    authority, a decode error on a body that is not JSON). *)
Class Libs : Type := {
  World : Type;
  session_send : World -> Request -> result Response * World;
  json_loads : string -> result pyval;
  urlparse : string -> result ParseResult;
  repr_str : string -> string;
  repr_float : float -> string;
  oauth_client : Type;
  oauth_session : Type;
  BackendApplicationClient : string -> result oauth_client;
  OAuth2Session : oauth_client -> result oauth_session;
  fetch_token : oauth_session -> string -> string -> string -> World ->
                result (list (string * pyval)) * World
}.

Section Client.
Context `{L : Libs}.

(** [repr(v)], and [str(v)], which is what ["{}".format(v)] and an
    f-string field produce. *)
Fixpoint py_repr (v : pyval) : string :=
  match v with
  | PNone => "None"
  | PBool true => "True"
  | PBool false => "False"
  | PInt z => str_int z
  | PFloat f => repr_float f
  | PStr s => repr_str s
  | PList l => "[" +:+ str_join ", " (map py_repr l) +:+ "]"
  | PDict kvs =>
      "{" +:+ str_join ", "
                (map (fun kv => match kv with
                                | (k, x) => repr_str k +:+ ": " +:+ py_repr x
                                end) kvs) +:+ "}"
  end.

Definition py_str (v : pyval) : string :=
  match v with
  | PStr s => s
  | _ => py_repr v
  end.

(** [response.json()] and [json.loads(response.text)] parse the same text. *)
Definition Response_json (r : Response) : result pyval := json_loads (text r).

(** ** State and the monad of client code *)

(** [st_headers] is [self.session.headers]; [st_sent] records, oldest
    first, every call made on the session. *)
Record State : Type := mkState {
  st_headers : gmap string string;
  st_world : World;
  st_sent : list Request
}.

Definition M (A : Type) : Type := State -> result A * State.

Definition ret {A} (a : A) : M A := fun st => (Ok a, st).

Definition raise {A} (e : exn) : M A := fun st => (Raise e, st).

Definition bind {A B} (m : M A) (k : A -> M B) : M B :=
  fun st =>
    match m st with
    | (Ok a, st') => k a st'
    | (Raise e, st') => (Raise e, st')
    end.

Definition lift {A} (r : result A) : M A := fun st => (r, st).

(** [try: m  except <catches>: h]; an exception the clause does not match
    goes on. *)
Definition try_except {A} (m : M A) (catches : exn -> bool) (h : exn -> M A) : M A :=
  fun st =>
    match m st with
    | (Ok a, st') => (Ok a, st')
    | (Raise e, st') => if catches e then h e st' else (Raise e, st')
    end.

(** [self.session.headers[k] = v] *)
Definition set_header (k v : string) : M unit :=
  fun st => (Ok tt, mkState (<[k := v]> (st_headers st)) (st_world st) (st_sent st)).

(** [getattr(self.session, meth)(url, *args, **kwargs)] *)
Definition session_meth (meth url : string) (args : list pyval)
           (kwargs : list (string * pyval)) : M Response :=
  fun st =>
    let req := mkRequest meth url args kwargs (st_headers st) in
    let (r, w') := session_send (st_world st) req in
    (r, mkState (st_headers st) w' (st_sent st ++ [req])).

(** [oauth.fetch_token(token_url=..., client_id=..., client_secret=...)]:
    a call on the OAuth session, a different object from [self.session]. *)
Definition oauth_fetch_token (oauth : oauth_session)
           (token_url client_id client_secret : string) : M (list (string * pyval)) :=
  fun st =>
    let (r, w') := fetch_token oauth token_url client_id client_secret (st_world st) in
    (r, mkState (st_headers st) w' (st_sent st)).
End Client.

Notation "x <- m ;; k" := (bind m (fun x => k))
  (at level 100, m at next level, right associativity).
Notation "m ;;; k" := (bind m (fun _ => k))
  (at level 100, right associativity).

(** ** The client *)

(** [self.config]: the keyword arguments of the constructor, held as given.
    The values the client reads ([baseurl], [username], [password] and the
    three [oauth_*] keys) are strings.  The session's default headers are a
    map from header names as the client spells them. *)
Record ElectronBond : Type := mkElectronBond {
  config : gmap string string
}.

(** [self.config[k]] *)
Definition config_getitem (self : ElectronBond) (k : string) : result string :=
  match config self !! k with
  | Some v => Ok v
  | None => Raise (KeyError_of k)
  end.

(** The verbs [ElectronBondProxyMethods.__init__] installs, in client.py
    and in client/web_client.py (which has no [patch]). *)
Definition proxy_verbs : list string :=
  ["get"; "post"; "head"; "patch"; "put"; "delete"; "options"]%string.

Definition web_client_proxy_verbs : list string :=
  ["get"; "post"; "head"; "put"; "delete"; "options"]%string.

(** A generator made by [get_paged].  [GenCreated]: no line of the body has
    run.  [GenSuspended]: stopped at [yield obj] inside the [for] loop, with
    the items the loop has still to visit.  [GenFinished]: returned or
    raised. *)
Inductive generator : Type :=
| GenCreated (url : string) (args : list pyval) (kwargs : list (string * pyval))
| GenSuspended (url : string) (params : list (string * pyval))
               (current_json : pyval) (pending : list pyval)
| GenFinished.

(** How a consumer's loop over a generator ends: [StopIteration], an
    exception, or the consumer stops asking. *)
Inductive ending : Type :=
| Exhausted
| Failed (e : exn)
| Unfinished (g : generator).

Section Methods.
Context `{L : Libs}.

(** [ElectronBond.__init__], on the session the state holds. *)
Definition ElectronBond_init (cfg : gmap string string) : M ElectronBond :=
  set_header "Accept" "application/json" ;;;
  set_header "User-Agent" "ElectronBond/0.1" ;;;
  ret (mkElectronBond cfg).

(** [http_meth_factory(meth)] *)
Definition http_meth_factory (meth : string) (self : ElectronBond) (url : string)
           (args : list pyval) (kwargs : list (string * pyval)) : M Response :=
  url' <- lift (urlparse url) ;;
  baseurl <- lift (config_getitem self "baseurl") ;;
  let full_url := str_join "/" [rstrip "/" baseurl; lstrip "/" (path url')] in
  result <- session_meth meth full_url args kwargs ;;
  ret result.

(** The attribute the metaclass set on the class for [name], if any. *)
Definition proxy_method (verbs : list string) (name : string)
  : option (ElectronBond -> string -> list pyval -> list (string * pyval) -> M Response) :=
  if existsb (String.eqb name) verbs then Some (http_meth_factory name) else None.

(** [self.get] *)
Definition get : ElectronBond -> string -> list pyval -> list (string * pyval) -> M Response :=
  http_meth_factory "get".

(** [ElectronBond.authorize] *)
Definition authorize (self : ElectronBond) : M pyval :=
  baseurl <- lift (config_getitem self "baseurl") ;;
  password <- lift (config_getitem self "password") ;;
  username <- lift (config_getitem self "username") ;;
  resp <- session_meth "post" (str_join "/" [rstrip "/" baseurl; "get-token/"%string]) []
            [("data"%string, PDict [("password"%string, PStr password);
                                    ("username"%string, PStr username)])] ;;
  if negb (existsb (Z.eqb (status_code resp)) [200; 201]) then
    raise (Exn ElectronBondAuthError
               ("Failed to authorize with status: " +:+ str_int (status_code resp)))
  else
    body <- lift (json_loads (text resp)) ;;
    session_token <- lift (py_getitem body "token") ;;
    set_header "Authorization" ("Bearer " +:+ py_str session_token) ;;;
    ret session_token.

(** The body of the [try] in [authorize_oauth]: the OAuth client and
    session are built and the token is fetched. *)
Definition authorize_oauth_try (self : ElectronBond) : M (list (string * pyval)) :=
  client_id <- lift (config_getitem self "oauth_client_id") ;;
  client <- lift (BackendApplicationClient client_id) ;;
  oauth <- lift (OAuth2Session client) ;;
  oauth_client_baseurl <- lift (config_getitem self "oauth_client_baseurl") ;;
  client_id' <- lift (config_getitem self "oauth_client_id") ;;
  client_secret <- lift (config_getitem self "oauth_client_secret") ;;
  token <- oauth_fetch_token oauth (oauth_client_baseurl +:+ "/oauth2/token")
                             client_id' client_secret ;;
  ret token.

(** [ElectronBond.authorize_oauth] *)
Definition authorize_oauth (self : ElectronBond) : M pyval :=
  token <- try_except (authorize_oauth_try self) isinstance_Exception
             (fun e => raise (Exn ElectronBondAuthError
                                  ("Failed to authorize OAuth with message: " +:+ exn_str e))) ;;
  access_token <- lift (dict_getitem token "access_token") ;;
  set_header "Authorization" ("Bearer " +:+ py_str access_token) ;;;
  access_token' <- lift (dict_getitem token "access_token") ;;
  ret access_token'.
End Methods.

(** ** [get_paged]

    Calling [get_paged] only makes the generator; its body runs, one
    stretch per [next], from the start or from the last [yield] to the next
    [yield], to the end of the body or to an exception. *)
Section Paginator.
Context `{L : Libs}.

(** The clause of the [except] that closes the [try]: [except Exception]
    in client.py, a bare [except] in client/web_client.py. *)
Variable catches : exn -> bool.

Definition get_paged (url : string) (args : list pyval)
           (kwargs : list (string * pyval)) : generator :=
  GenCreated url args kwargs.

(** The message of the [ElectronBondReturnError] the handler raises. *)
Definition ReturnError_for (current_json : pyval) : exn :=
  Exn ElectronBondReturnError
      ("get_paged doesn't know how to handle " +:+ py_str current_json).

(** A stretch of the body inside the [try], with the value [current_json]
    has while it runs. *)
Definition in_try {A} (current_json : pyval) (body : M A) : M A :=
  try_except body catches (fun _ => raise (ReturnError_for current_json)).

(** Lines 113-116: [params] and what is left of [kwargs]. *)
Definition initial_params (kwargs : list (string * pyval))
  : result (list (string * pyval) * list (string * pyval)) :=
  let params := [("page"%string, PInt 1)] in
  if dict_contains "params" kwargs then
    match dict_get "params" kwargs with
    | Some (PDict given) => Ok (dict_update params given, dict_del "params" kwargs)
    | _ => Raise (Exn TypeError "argument after ** must be a mapping")
    end
  else Ok (params, kwargs).

(** The head of the [while]: [len(current_json["results"]) > 0], then the
    [for] loop up to its first [yield].  [None] is the end of the body. *)
Definition while_head (url : string) (params : list (string * pyval))
           (current_json : pyval) : M (option (pyval * generator)) :=
  in_try current_json
    (results <- lift (py_getitem current_json "results") ;;
     items <- lift (py_items results) ;;
     match items with
     | [] => ret None
     | obj :: rest => ret (Some (obj, GenSuspended url params current_json rest))
     end).

(** After the [for] loop: the test of [next], the next page number, the
    fetch and its parse, all inside the [try] and with the page just
    consumed still in [current_json]; then the head of the [while] on the
    new page. *)
Definition after_for (self : ElectronBond) (url : string)
           (params : list (string * pyval)) (current_json : pyval)
  : M (option (pyval * generator)) :=
  fetched <- in_try current_json
               (next <- lift (py_get current_json "next") ;;
                if negb (truthy next) then ret None
                else
                  page <- lift (dict_getitem params "page") ;;
                  page' <- lift (py_iadd1 page) ;;
                  let params' := dict_set "page" page' params in
                  current_page <- get self url [] [("params"%string, PDict params')] ;;
                  current_json' <- lift (Response_json current_page) ;;
                  ret (Some (params', current_json'))) ;;
  match fetched with
  | None => ret None
  | Some (params', current_json') => while_head url params' current_json'
  end.

(** [next(g)]: [Ok (Some (obj, g'))] is [yield obj], leaving the generator
    as [g']; [Ok None] is [StopIteration]; after it, and after an
    exception, the generator is [GenFinished]. *)
Definition generator_next (self : ElectronBond) (g : generator)
  : M (option (pyval * generator)) :=
  match g with
  | GenCreated url args kwargs =>
      pk <- lift (initial_params kwargs) ;;
      let params := fst pk in
      let kwargs' := snd pk in
      current_page <- get self url [] (("params"%string, PDict params) :: kwargs') ;;
      current_json <- lift (Response_json current_page) ;;
      while_head url params current_json
  | GenSuspended url params current_json pending =>
      match pending with
      | obj :: rest => ret (Some (obj, GenSuspended url params current_json rest))
      | [] => after_for self url params current_json
      end
  | GenFinished => ret None
  end.

(** A consumer that asks for at most [fuel] items ([for obj in g], or
    [list(g)]): the items it got, in order, and how it ended. *)
Fixpoint consume (fuel : nat) (self : ElectronBond) (g : generator) (st : State)
  : (list pyval * ending) * State :=
  match fuel with
  | O => (([], Unfinished g), st)
  | S fuel' =>
      match generator_next self g st with
      | (Ok (Some (obj, g')), st') =>
          let '((items, e), st'') := consume fuel' self g' st' in
          ((obj :: items, e), st'')
      | (Ok None, st') => (([], Exhausted), st')
      | (Raise e, st') => (([], Failed e), st')
      end
  end.
End Paginator.

(** The two source files. *)
Definition client_next `{L : Libs} := generator_next isinstance_Exception.
Definition client_consume `{L : Libs} := consume isinstance_Exception.
Definition web_client_next `{L : Libs} := generator_next bare_except.
Definition web_client_consume `{L : Libs} := consume bare_except.

(** ** What the statements below speak of *)

(** The [results] array of a well-formed page, and whether its [next] field
    is present and truthy. *)
Definition page_results (j : pyval) : list pyval :=
  match py_getitem j "results" with
  | Ok (PList rs) => rs
  | _ => []
  end.

Definition page_has_next (j : pyval) : bool :=
  match py_get j "next" with
  | Ok v => truthy v
  | Raise _ => false
  end.

(** A page as the wire contract describes it: an object whose [results] is
    an array. *)
Definition well_formed_page (j : pyval) : Prop :=
  exists kvs rs, j = PDict kvs /\ dict_get "results" kvs = Some (PList rs).

(** The items a sequence of pages holds for the paginator: each page's
    [results] in order, up to and including the first page with no truthy
    [next], or up to the first page with empty [results]. *)
Fixpoint paged_items (pages : list pyval) : list pyval :=
  match pages with
  | [] => []
  | j :: rest =>
      match page_results j with
      | [] => []
      | rs => rs ++ (if page_has_next j then paged_items rest else [])
      end
  end.

(** How many of the pages are fetched before the sequence ends. *)
Fixpoint pages_read (pages : list pyval) : nat :=
  match pages with
  | [] => O
  | j :: rest =>
      match page_results j with
      | [] => 1%nat
      | _ => if page_has_next j then S (pages_read rest) else 1%nat
      end
  end.

(** The pages contain one that ends the sequence. *)
Fixpoint has_last_page (pages : list pyval) : bool :=
  match pages with
  | [] => false
  | j :: rest =>
      match page_results j with
      | [] => true
      | _ => if page_has_next j then has_last_page rest else true
      end
  end.

(** The page number a request asks for. *)
Definition req_page (r : Request) : option pyval :=
  match dict_get "params" (req_kwargs r) with
  | Some (PDict p) => dict_get "page" p
  | _ => None
  end.

(** The world answers a [get] for page [n] with the first of [pages], a
    [get] for page [n + 1] after it with the second, and so on. *)
Fixpoint serves `{L : Libs} (w : World) (n : Z) (pages : list pyval) : Prop :=
  match pages with
  | [] => True
  | j :: rest =>
      forall r, req_meth r = "get"%string -> req_page r = Some (PInt n) ->
                exists resp w', session_send w r = (Ok resp, w') /\
                                json_loads (text resp) = Ok j /\
                                serves w' (n + 1) rest
  end.

(** A page on which the paginator's reads succeed. *)
Definition page_shape_ok (j : pyval) : bool :=
  match py_getitem j "results" with
  | Ok results =>
      match py_items results, py_get j "next" with
      | Ok _, Ok _ => true
      | _, _ => false
      end
  | Raise _ => false
  end.

(** The [params] mapping the caller passed, if any. *)
Definition caller_params (kwargs : list (string * pyval)) : list (string * pyval) :=
  match dict_get "params" kwargs with
  | Some (PDict given) => given
  | _ => []
  end.

(** Every fetch after the first: a [get] with no positional argument and
    the single keyword argument [params], the previous mapping with its
    [page] incremented. *)
Fixpoint later_fetches (params : list (string * pyval)) (reqs : list Request) : Prop :=
  match reqs with
  | [] => True
  | r :: rest =>
      exists page page',
        dict_get "page" params = Some page /\ py_iadd1 page = Ok page' /\
        req_meth r = "get"%string /\ req_args r = [] /\
        req_kwargs r = [("params"%string, PDict (dict_set "page" page' params))] /\
        later_fetches (dict_set "page" page' params) rest
  end.

(** The requests made since the state [st]. *)
Definition sent_since `{L : Libs} (st st' : State) : list Request :=
  drop (length (st_sent st)) (st_sent st').

(** The operations of the client other than the two authenticators. *)
Inductive client_op : Type :=
| OpVerb (verb url : string) (args : list pyval) (kwargs : list (string * pyval))
| OpNext (g : generator).

Definition run_op `{L : Libs} (catches : exn -> bool) (self : ElectronBond)
           (op : client_op) (st : State) : State :=
  match op with
  | OpVerb verb url args kwargs => snd (http_meth_factory verb self url args kwargs st)
  | OpNext g => snd (generator_next catches self g st)
  end.

Definition run_ops `{L : Libs} (catches : exn -> bool) (self : ElectronBond)
           (ops : list client_op) (st : State) : State :=
  fold_left (fun s op => run_op catches self op s) ops st.

(** [next(g)] from the state [st] fetches a page: the first one, when the
    generator has not started, or the one after a page that is used up and
    has a truthy [next].  The response parses to [j] and the state after
    the fetch is [st1]. *)
Inductive reads_page `{L : Libs} (self : ElectronBond)
  : generator -> State -> pyval -> State -> Prop :=
| reads_first (url : string) (args : list pyval) (kwargs : list (string * pyval))
              (pk : list (string * pyval) * list (string * pyval))
              (resp : Response) (st st1 : State) (j : pyval) :
    initial_params kwargs = Ok pk ->
    get self url [] (("params"%string, PDict (fst pk)) :: snd pk) st = (Ok resp, st1) ->
    Response_json resp = Ok j ->
    reads_page self (GenCreated url args kwargs) st j st1
| reads_later (url : string) (params : list (string * pyval)) (current_json next : pyval)
              (page page' : pyval) (resp : Response) (st st1 : State) (j : pyval) :
    py_get current_json "next" = Ok next ->
    truthy next = true ->
    dict_get "page" params = Some page ->
    py_iadd1 page = Ok page' ->
    get self url [] [("params"%string, PDict (dict_set "page" page' params))] st
      = (Ok resp, st1) ->
    Response_json resp = Ok j ->
    reads_page self (GenSuspended url params current_json []) st j st1.

(** [st'] comes after [st] with the session's default headers untouched,
    and every request made in between was made under those headers. *)
Definition frames `{L : Libs} (st st' : State) : Prop :=
  st_headers st' = st_headers st /\
  exists new, st_sent st' = st_sent st ++ new /\
              Forall (fun r => req_headers r = st_headers st) new.

(** A computation that leaves the default headers alone from any state. *)
Definition framing `{L : Libs} {A : Type} (m : M A) : Prop :=
  forall st, frames st (snd (m st)).

(** ** A mock of the libraries

    Test fixtures in the manner of a mocked [requests] adapter: the world
    counts the calls made, a response body is a name that [bodies] maps to
    the value it parses to, and [urlparse] knows [http://host/path]. *)
Module Mock.
Fixpoint from_slash (s : string) : string :=
  match s with
  | EmptyString => EmptyString
  | String c s' => if Ascii.eqb c "/" then s else from_slash s'
  end.

Fixpoint before_query (s : string) : string :=
  match s with
  | EmptyString => EmptyString
  | String c s' => if Ascii.eqb c "?" then EmptyString else String c (before_query s')
  end.

Definition parse (url : string) : result ParseResult :=
  if String.prefix "http://" url then
    let rest := substring 7 (String.length url - 7) url in
    Ok (mkParseResult "http" "" (before_query (from_slash rest)) "" "" "")
  else Ok (mkParseResult "" "" (before_query url) "" "" "").

Definition loads (bodies : list (string * pyval)) (s : string) : result pyval :=
  match dict_get s bodies with
  | Some v => Ok v
  | None => Raise (Exn (LibException "JSONDecodeError") "Expecting value")
  end.

Definition libs (bodies : list (string * pyval))
           (server : nat -> Request -> result Response)
           (construct : result unit)
           (token : result (list (string * pyval))) : Libs :=
  {| World := nat;
     session_send := fun w r => (server w r, S w);
     json_loads := loads bodies;
     urlparse := parse;
     repr_str := fun s => "'" +:+ s +:+ "'";
     repr_float := fun _ => "0.0"%string;
     oauth_client := unit;
     oauth_session := unit;
     BackendApplicationClient := fun _ => construct;
     OAuth2Session := fun c => Ok c;
     fetch_token := fun _ _ _ _ w => (token, S w) |}.

Definition ConnectionError : exn :=
  Exn (LibException "ConnectionError") "Max retries exceeded".

Definition KeyboardInterrupt : exn := Exn (BaseOnly "KeyboardInterrupt") "".

(** A server of pages: page [n] is the [n]-th body of [texts], and a page
    past the last one cannot be reached. *)
Definition paged_server (texts : list string) (_ : nat) (r : Request) : result Response :=
  match req_page r with
  | Some (PInt n) =>
      match nth_error texts (Z.to_nat (n - 1)) with
      | Some t => Ok (mkResponse 200 t)
      | None => Raise ConnectionError
      end
  | _ => Raise ConnectionError
  end.

(** A token endpoint that always answers with the same status and body. *)
Definition token_server (status : Z) (body : string) (_ : nat) (_ : Request)
  : result Response :=
  Ok (mkResponse status body).

Definition page1 : pyval :=
  PDict [("results"%string, PList [PInt 1; PInt 2]);
         ("next"%string, PStr "http://api.example/objects/?page=2")].
Definition page2 : pyval :=
  PDict [("results"%string, PList [PInt 3]); ("next"%string, PNone)].
Definition empty_page : pyval :=
  PDict [("results"%string, PList []); ("next"%string, PNone)].
Definition no_results : pyval := PDict [("count"%string, PInt 0)].

Definition bodies : list (string * pyval) :=
  [("page1"%string, page1); ("page2"%string, page2);
   ("empty_page"%string, empty_page); ("no_results"%string, no_results);
   ("token_abc"%string, PDict [("token"%string, PStr "abc")])].

Definition self : ElectronBond :=
  mkElectronBond (<["baseurl" := "http://api.example/"]>
                  (<["username" := "u"]>
                   (<["password" := "p"]>
                    (<["oauth_client_id" := "id"]>
                     (<["oauth_client_secret" := "secret"]>
                      (<["oauth_client_baseurl" := "http://auth.example"]> ∅)))))).

Definition paged_libs (texts : list string) : Libs :=
  libs bodies (paged_server texts) (Ok tt) (Ok []).

(** A service with both the token endpoint and two pages. *)
Definition api_server (w : nat) (r : Request) : result Response :=
  if String.eqb (req_meth r) "post" then token_server 200 "token_abc" w r
  else paged_server ["page1"; "page2"]%string w r.

Definition api : Libs := libs bodies api_server (Ok tt) (Ok []).

Definition two_pages : Libs := paged_libs ["page1"; "page2"]%string.
Definition one_page : Libs := paged_libs ["page1"]%string.
Definition only_empty_page : Libs := paged_libs ["empty_page"]%string.
Definition only_no_results : Libs := paged_libs ["no_results"]%string.

Definition token_libs (status : Z) (body : string) : Libs :=
  libs bodies (token_server status body) (Ok tt) (Ok []).

Definition oauth_libs (token : result (list (string * pyval))) : Libs :=
  libs bodies (token_server 200 "token_abc") (Ok tt) token.

(** A session as [ElectronBond.__init__] leaves it, before any call. *)
Definition st0 (L : Libs) (w : @World L) : @State L :=
  mkState (<["Accept" := "application/json"]>
           (<["User-Agent" := "ElectronBond/0.1"]> ∅)) w [].
End Mock.

(** ** Further notions: all operations, single headers, targets *)

(** Every operation of the client on its session, the two authenticators
    included. *)
Inductive session_op : Type :=
| SAuthorize
| SAuthorizeOAuth
| SClient (op : client_op).

Definition run_session_op `{L : Libs} (catches : exn -> bool) (self : ElectronBond)
           (op : session_op) (st : State) : State :=
  match op with
  | SAuthorize => snd (authorize self st)
  | SAuthorizeOAuth => snd (authorize_oauth self st)
  | SClient o => run_op catches self o st
  end.

Definition run_session_ops `{L : Libs} (catches : exn -> bool) (self : ElectronBond)
           (ops : list session_op) (st : State) : State :=
  fold_left (fun s op => run_session_op catches self op s) ops st.

(** [st'] comes after [st] with the default header [k] as it was, and
    every request made in between was made under that value of [k]. *)
Definition keeps `{L : Libs} (k : string) (st st' : State) : Prop :=
  st_headers st' !! k = st_headers st !! k /\
  exists new, st_sent st' = st_sent st ++ new /\
              Forall (fun r => req_headers r !! k = st_headers st !! k) new.

Definition keeping `{L : Libs} {A : Type} (k : string) (m : M A) : Prop :=
  forall st, keeps k st (snd (m st)).

(** Every call a computation makes on the session satisfies [P]. *)
Definition sends_only `{L : Libs} {A : Type} (P : Request -> Prop) (m : M A) : Prop :=
  forall st, exists new, st_sent (snd (m st)) = st_sent st ++ new /\ Forall P new.

(** [s.lower()] on one-byte characters: the key under which the session's
    header mapping, which ignores case, files a header name. *)
Definition lower_char (c : ascii) : ascii :=
  let n := nat_of_ascii c in
  if ((65 <=? n)%nat && (n <=? 90)%nat)%bool then ascii_of_nat (n + 32) else c.

Fixpoint str_lower (s : string) : string :=
  match s with
  | EmptyString => EmptyString
  | String c s' => String (lower_char c) (str_lower s')
  end.

(** The URL a proxied call on [url] goes to, when it goes anywhere. *)
Definition target_url `{L : Libs} (self : ElectronBond) (url : string) : option string :=
  match urlparse url, config self !! "baseurl" with
  | Ok p, Some b => Some (str_join "/" [rstrip "/" b; lstrip "/" (path p)])
  | _, _ => None
  end.

(** The URL a generator was made for. *)
Definition generator_url (g : generator) : option string :=
  match g with
  | GenCreated url _ _ => Some url
  | GenSuspended url _ _ _ => Some url
  | GenFinished => None
  end.

(** The [params] mapping a request carries. *)
Definition req_params (r : Request) : list (string * pyval) :=
  match dict_get "params" (req_kwargs r) with
  | Some (PDict p) => p
  | _ => []
  end.

(** Whatever the state of the world, as long as [inv] holds of it, a [get]
    is answered with a body that parses to [j], and [inv] holds again. *)
Definition serves_forever `{L : Libs} (inv : World -> Prop) (j : pyval) : Prop :=
  forall w r, inv w -> req_meth r = "get"%string ->
              exists resp w', session_send w r = (Ok resp, w') /\
                              json_loads (text resp) = Ok j /\ inv w'.

(** More fixtures. *)
Module Fixtures.
Definition slash : ascii := "/"%char.

Definition is_slash (c : ascii) : bool := char_in c "/".

(** A client without [baseurl], and one without the OAuth keys. *)
Definition no_baseurl : ElectronBond :=
  mkElectronBond (<["username" := "u"]> (<["password" := "p"]> ∅)).

Definition no_oauth : ElectronBond :=
  mkElectronBond (<["baseurl" := "http://api.example/"]> ∅).

(** A client with the OAuth client id and neither base URL nor secret. *)
Definition half_oauth : ElectronBond :=
  mkElectronBond (<["baseurl" := "http://api.example/"]> (<["oauth_client_id" := "id"]> ∅)).

(** The client of [Mock.self] with more slashes at the end of [baseurl]. *)
Definition slashy : ElectronBond :=
  mkElectronBond (<["baseurl" := "http://api.example///"]> (config Mock.self)).

(** A server whose every answer is [page1], whose [next] is set. *)
Definition endless : Libs :=
  Mock.libs Mock.bodies (fun _ _ => Ok (mkResponse 200 "page1")) (Ok tt) (Ok []).

(** A token endpoint that answers 200 with a body that is not JSON, or
    with JSON that has no [token]. *)
Definition not_json : Libs := Mock.token_libs 200 "<html>".
Definition no_token : Libs := Mock.token_libs 200 "no_results".

(** A transport that fails on every call. *)
Definition unreachable : Libs :=
  Mock.libs Mock.bodies (fun _ _ => Raise Mock.ConnectionError) (Ok tt) (Ok []).

(** OAuth libraries where building the client fails with a [ValueError]. *)
Definition bad_oauth_client : Libs :=
  Mock.libs Mock.bodies (Mock.token_server 200 "token_abc")
            (Raise (Exn (LibException "ValueError") "invalid client_id")) (Ok []).

Definition granted : Libs :=
  Mock.oauth_libs (Ok [("access_token"%string, PStr "xyz");
                       ("token_type"%string, PStr "Bearer")]).

Definition page_of_text : pyval :=
  PDict [("results"%string, PStr "ab"); ("next"%string, PNone)].

(** A server whose only page has a string for [results]. *)
Definition text_libs : Libs :=
  Mock.libs [("text_page"%string, page_of_text)]
            (Mock.paged_server ["text_page"%string]) (Ok tt) (Ok []).
End Fixtures.

(** * Properties *)

(** [lstrip] removes a prefix made of the given characters, and all of it. *)
Lemma lstrip_spec (chars s : string) :
  exists pre,
    s = pre +:+ lstrip chars s /\
    str_forallb (fun c => char_in c chars) pre = true /\
    match first_char (lstrip chars s) with
    | Some c => char_in c chars = false
    | None => True
    end.
Proof.
  induction s as [| c s IH]; simpl.
  - exists EmptyString. repeat split.
  - destruct (char_in c chars) eqn:E.
    + destruct IH as [pre [Hs [Hall Hfirst]]].
      exists (String c pre). simpl. rewrite E, Hall.
      split; [| split; [reflexivity | exact Hfirst]].
      change (String c s = String c (pre +:+ lstrip chars s)). f_equal. exact Hs.
    + exists EmptyString. simpl. repeat split. exact E.
Qed.

(** [rstrip] removes a suffix made of the given characters, and all of it. *)
Lemma rstrip_spec (chars s : string) :
  exists suf,
    s = rstrip chars s +:+ suf /\
    str_forallb (fun c => char_in c chars) suf = true /\
    match last_char (rstrip chars s) with
    | Some c => char_in c chars = false
    | None => True
    end.
Proof.
  induction s as [| c s IH]; simpl.
  - exists EmptyString. repeat split.
  - destruct IH as [suf [Hs [Hall Hlast]]].
    destruct (rstrip chars s) as [| a t] eqn:R.
    + destruct (char_in c chars) eqn:E.
      * exists (String c suf). simpl in *. rewrite E, Hall.
        split; [| split; [reflexivity | exact I]].
        change (String c s = String c (EmptyString +:+ suf)). f_equal. exact Hs.
      * exists suf. simpl in *.
        split; [| split; [exact Hall | exact E]].
        change (String c s = String c (EmptyString +:+ suf)). f_equal. exact Hs.
    + exists suf.
      split; [| split; [exact Hall | exact Hlast]].
      change (String c s = String c (String a t +:+ suf)). f_equal. exact Hs.
Qed.

Section AuthAndVerbs.
Context `{L : Libs}.

Lemma sent_since_app (st : State) (h : gmap string string) (w : World) (new : list Request) :
  sent_since st (mkState h w (st_sent st ++ new)) = new.
Proof. unfold sent_since; simpl. apply drop_app_length. Qed.

Lemma session_meth_eq (meth url : string) (args : list pyval)
      (kwargs : list (string * pyval)) (st : State) :
  session_meth meth url args kwargs st =
    (fst (session_send (st_world st) (mkRequest meth url args kwargs (st_headers st))),
     mkState (st_headers st)
             (snd (session_send (st_world st) (mkRequest meth url args kwargs (st_headers st))))
             (st_sent st ++ [mkRequest meth url args kwargs (st_headers st)])).
Proof. unfold session_meth. destruct (session_send _ _); reflexivity. Qed.

(** What one proxied call does when the URL parses and [baseurl] is
    configured: one call on the session, at the prefixed URL. *)
Lemma http_meth_factory_eq (meth : string) (self : ElectronBond) (url : string)
      (args : list pyval) (kwargs : list (string * pyval)) (st : State)
      (b : string) (p : ParseResult) :
  config self !! "baseurl" = Some b ->
  urlparse url = Ok p ->
  let req := mkRequest meth (rstrip "/" b +:+ "/" +:+ lstrip "/" (path p)) args kwargs
                       (st_headers st) in
  http_meth_factory meth self url args kwargs st =
    (fst (session_send (st_world st) req),
     mkState (st_headers st) (snd (session_send (st_world st) req)) (st_sent st ++ [req])).
Proof.
  intros Hb Hp req. unfold http_meth_factory, bind, lift, ret, config_getitem.
  rewrite Hp, Hb. simpl str_join. rewrite session_meth_eq. fold req.
  destruct (session_send (st_world st) req) as [[resp | e] w']; reflexivity.
Qed.

(** C2: for each verb the metaclass installs (in either source file), the
    proxy method exists and the one request it hands to the session has as
    URL the configured [baseurl] without its trailing slashes, a ["/"], and
    the path component of the argument without its leading slashes; scheme,
    host and query of the argument play no part. *)
Theorem proxy_verb_targets_baseurl :
  forall (verbs : list string) (verb : string) (self : ElectronBond) (url : string)
         (args : list pyval) (kwargs : list (string * pyval)) (st : State)
         (b : string) (p : ParseResult),
    verbs = proxy_verbs \/ verbs = web_client_proxy_verbs ->
    In verb verbs ->
    config self !! "baseurl" = Some b ->
    urlparse url = Ok p ->
    exists f,
      proxy_method verbs verb = Some f /\
      sent_since st (snd (f self url args kwargs st)) =
        [mkRequest verb (rstrip "/" b +:+ "/" +:+ lstrip "/" (path p)) args kwargs
                   (st_headers st)].
Proof.
  intros verbs verb self url args kwargs st b p Hverbs Hin Hb Hp.
  exists (http_meth_factory verb). split.
  - unfold proxy_method.
    assert (Hex : existsb (String.eqb verb) verbs = true).
    { apply existsb_exists. exists verb. split; [exact Hin | apply String.eqb_refl]. }
    rewrite Hex. reflexivity.
  - rewrite (http_meth_factory_eq verb self url args kwargs st b p Hb Hp).
    simpl snd. apply sent_since_app.
Qed.

Lemma frames_refl (st : State) : frames st st.
Proof. split; [reflexivity | exists []; split; [symmetry; apply app_nil_r | constructor]]. Qed.

Lemma frames_trans (st1 st2 st3 : State) :
  frames st1 st2 -> frames st2 st3 -> frames st1 st3.
Proof.
  intros [H12 [n12 [S12 F12]]] [H23 [n23 [S23 F23]]]. split.
  - congruence.
  - exists (n12 ++ n23). split.
    + rewrite S23, S12. symmetry; apply app_assoc.
    + apply Forall_app. split; [exact F12 |].
      rewrite H12 in F23. exact F23.
Qed.

Lemma framing_ret {A} (a : A) : framing (ret a).
Proof. intro st. apply frames_refl. Qed.

Lemma framing_raise {A} (e : exn) : framing (@raise _ A e).
Proof. intro st. apply frames_refl. Qed.

Lemma framing_lift {A} (r : result A) : framing (lift r).
Proof. intro st. apply frames_refl. Qed.

Lemma framing_bind {A B} (m : M A) (k : A -> M B) :
  framing m -> (forall a, framing (k a)) -> framing (bind m k).
Proof.
  intros Hm Hk st. unfold bind. specialize (Hm st).
  destruct (m st) as [[a | e] st']; simpl in *.
  - eapply frames_trans; [exact Hm | apply Hk].
  - exact Hm.
Qed.

Lemma framing_try_except {A} (m : M A) (c : exn -> bool) (h : exn -> M A) :
  framing m -> (forall e, framing (h e)) -> framing (try_except m c h).
Proof.
  intros Hm Hh st. unfold try_except. specialize (Hm st).
  destruct (m st) as [[a | e] st']; simpl in *.
  - exact Hm.
  - destruct (c e); simpl.
    + eapply frames_trans; [exact Hm | apply Hh].
    + exact Hm.
Qed.

Lemma framing_session_meth (meth url : string) (args : list pyval)
      (kwargs : list (string * pyval)) :
  framing (session_meth meth url args kwargs).
Proof.
  intro st. rewrite session_meth_eq. simpl. split; [reflexivity |].
  eexists. split; [reflexivity |]. repeat constructor.
Qed.

Lemma framing_http_meth_factory (meth : string) (self : ElectronBond) (url : string)
      (args : list pyval) (kwargs : list (string * pyval)) :
  framing (http_meth_factory meth self url args kwargs).
Proof.
  unfold http_meth_factory.
  repeat (first [ apply framing_bind; [| intro ]
                | apply framing_lift | apply framing_ret
                | apply framing_session_meth ]).
Qed.

(** Under a header that is set, everything sent from a framed state
    carries it. *)
Lemma frames_carry (st st' : State) (k v : string) :
  frames st st' ->
  st_headers st !! k = Some v ->
  st_headers st' !! k = Some v /\
  Forall (fun r => req_headers r !! k = Some v) (sent_since st st').
Proof.
  intros [Hh [new [Hs Hf]]] Hk. split.
  - rewrite Hh. exact Hk.
  - unfold sent_since. rewrite Hs, drop_app_length.
    eapply Forall_impl; [exact Hf |]. intros r Hr; simpl in Hr. rewrite Hr. exact Hk.
Qed.

(** C3: when the token endpoint answers 200 or 201 with a JSON object
    whose [token] field is the string [tok], [authorize] returns [tok], the
    session's default [Authorization] header becomes [Bearer tok], and every
    request a proxy verb then sends on the session carries that header. *)
Theorem authorize_returns_token :
  forall (self : ElectronBond) (st : State) (b u pw : string)
         (resp : Response) (w' : World) (body : pyval) (tok : string),
    config self !! "baseurl" = Some b ->
    config self !! "password" = Some pw ->
    config self !! "username" = Some u ->
    let req := mkRequest "post" (rstrip "/" b +:+ "/get-token/") []
                 [("data"%string, PDict [("password"%string, PStr pw);
                                         ("username"%string, PStr u)])]
                 (st_headers st) in
    session_send (st_world st) req = (Ok resp, w') ->
    status_code resp = 200 \/ status_code resp = 201 ->
    json_loads (text resp) = Ok body ->
    py_getitem body "token" = Ok (PStr tok) ->
    let st' := mkState (<["Authorization" := "Bearer " +:+ tok]> (st_headers st)) w'
                       (st_sent st ++ [req]) in
    authorize self st = (Ok (PStr tok), st') /\
    forall (verb url : string) (args : list pyval) (kwargs : list (string * pyval)),
      Forall (fun r => req_headers r !! "Authorization" = Some ("Bearer " +:+ tok))
             (sent_since st' (snd (http_meth_factory verb self url args kwargs st'))).
Proof.
  intros self st b u pw resp w' body tok Hb Hpw Hu req Hsend Hstatus Hbody Htok st'.
  split.
  - unfold authorize, bind, lift, config_getitem. rewrite Hb, Hpw, Hu.
    change (str_join "/" [rstrip "/" b; "get-token/"%string])
      with (rstrip "/" b +:+ "/get-token/").
    rewrite session_meth_eq. fold req. rewrite Hsend. simpl fst; simpl snd.
    assert (Hin : existsb (Z.eqb (status_code resp)) [200; 201] = true).
    { destruct Hstatus as [-> | ->]; reflexivity. }
    cbv beta iota. rewrite Hin. simpl negb. cbv beta iota. rewrite Hbody, Htok. reflexivity.
  - intros verb url args kwargs.
    apply (frames_carry st' _ "Authorization" ("Bearer " +:+ tok)).
    + apply framing_http_meth_factory.
    + subst st'. simpl. apply lookup_insert_eq.
Qed.

(** C4: when the token endpoint answers with a status that is neither 200
    nor 201, [authorize] raises [ElectronBondAuthError] with the status code
    in its message and the session's default headers are what they were. *)
Theorem authorize_rejects_other_status :
  forall (self : ElectronBond) (st : State) (b u pw : string)
         (resp : Response) (w' : World),
    config self !! "baseurl" = Some b ->
    config self !! "password" = Some pw ->
    config self !! "username" = Some u ->
    let req := mkRequest "post" (rstrip "/" b +:+ "/get-token/") []
                 [("data"%string, PDict [("password"%string, PStr pw);
                                         ("username"%string, PStr u)])]
                 (st_headers st) in
    session_send (st_world st) req = (Ok resp, w') ->
    status_code resp <> 200 ->
    status_code resp <> 201 ->
    authorize self st =
      (Raise (Exn ElectronBondAuthError
                  ("Failed to authorize with status: " +:+ str_int (status_code resp))),
       mkState (st_headers st) w' (st_sent st ++ [req])).
Proof.
  intros self st b u pw resp w' Hb Hpw Hu req Hsend H200 H201.
  unfold authorize, bind, lift, config_getitem. rewrite Hb, Hpw, Hu.
  change (str_join "/" [rstrip "/" b; "get-token/"%string])
    with (rstrip "/" b +:+ "/get-token/").
  rewrite session_meth_eq. fold req. rewrite Hsend. simpl fst; simpl snd.
  assert (Hin : existsb (Z.eqb (status_code resp)) [200; 201] = false).
  { simpl. apply Z.eqb_neq in H200, H201. rewrite H200, H201. reflexivity. }
  cbv beta iota. rewrite Hin. reflexivity.
Qed.
End AuthAndVerbs.

Section OAuth.
Context `{L : Libs}.

Lemma framing_oauth_fetch_token (oauth : oauth_session) (token_url cid secret : string) :
  framing (oauth_fetch_token oauth token_url cid secret).
Proof.
  intro st. unfold oauth_fetch_token.
  destruct (fetch_token oauth token_url cid secret (st_world st)) as [r w'].
  simpl. split; [reflexivity |]. exists []. split; [symmetry; apply app_nil_r | constructor].
Qed.

Lemma framing_authorize_oauth_try (self : ElectronBond) :
  framing (authorize_oauth_try self).
Proof.
  unfold authorize_oauth_try.
  repeat (first [ apply framing_bind; [| intro ]
                | apply framing_lift | apply framing_ret
                | apply framing_oauth_fetch_token ]).
Qed.

(** Where the body of the [try] can raise: building the client, building
    the session, fetching the token. *)
Lemma authorize_oauth_try_raises :
  forall (self : ElectronBond) (st : State) (e : exn) (cid : string),
    config self !! "oauth_client_id" = Some cid ->
    (BackendApplicationClient cid = Raise e ->
     authorize_oauth_try self st = (Raise e, st)) /\
    (forall c, BackendApplicationClient cid = Ok c -> OAuth2Session c = Raise e ->
               authorize_oauth_try self st = (Raise e, st)) /\
    (forall c o base secret w',
        BackendApplicationClient cid = Ok c -> OAuth2Session c = Ok o ->
        config self !! "oauth_client_baseurl" = Some base ->
        config self !! "oauth_client_secret" = Some secret ->
        fetch_token o (base +:+ "/oauth2/token") cid secret (st_world st) = (Raise e, w') ->
        authorize_oauth_try self st = (Raise e, mkState (st_headers st) w' (st_sent st))).
Proof.
  intros self st e cid Hcid.
  unfold authorize_oauth_try, bind, lift, config_getitem. rewrite Hcid.
  split; [| split].
  - intros ->. reflexivity.
  - intros c -> ->. reflexivity.
  - intros c o base secret w' -> -> -> -> Hf.
    unfold oauth_fetch_token. rewrite Hf. reflexivity.
Qed.

(** C5, as the code has it: an exception that is an instance of
    [Exception], raised while the OAuth client and session are built or the
    token is fetched, does not leave [authorize_oauth]; an
    [ElectronBondAuthError] whose message ends with the original message is
    raised in its place, and the session's default headers are untouched. *)
Theorem authorize_oauth_wraps_Exception :
  forall (self : ElectronBond) (st st' : State) (e : exn),
    authorize_oauth_try self st = (Raise e, st') ->
    isinstance_Exception e = true ->
    authorize_oauth self st =
      (Raise (Exn ElectronBondAuthError
                  ("Failed to authorize OAuth with message: " +:+ exn_str e)), st') /\
    st_headers st' = st_headers st.
Proof.
  intros self st st' e Htry Hexn. split.
  - unfold authorize_oauth, bind, try_except. rewrite Htry, Hexn. reflexivity.
  - pose proof (framing_authorize_oauth_try self st) as [Hh _].
    rewrite Htry in Hh. exact Hh.
Qed.

(** An exception that is not an instance of [Exception] passes through
    [authorize_oauth] as it is. *)
Lemma authorize_oauth_passes_BaseException :
  forall (self : ElectronBond) (st st' : State) (e : exn),
    authorize_oauth_try self st = (Raise e, st') ->
    isinstance_Exception e = false ->
    authorize_oauth self st = (Raise e, st').
Proof.
  intros self st st' e Htry Hexn.
  unfold authorize_oauth, bind, try_except. rewrite Htry, Hexn. reflexivity.
Qed.

(** C10: when the token fetch succeeds and the token has no
    [access_token] key, [authorize_oauth] raises the [KeyError] of the
    lookup, not an [ElectronBondAuthError], and the session's default
    headers are untouched. *)
Theorem authorize_oauth_missing_access_token :
  forall (self : ElectronBond) (st st' : State) (token : list (string * pyval)),
    authorize_oauth_try self st = (Ok token, st') ->
    dict_get "access_token" token = None ->
    authorize_oauth self st = (Raise (KeyError_of "access_token"), st') /\
    exn_cls (KeyError_of "access_token") = KeyError /\
    st_headers st' = st_headers st.
Proof.
  intros self st st' token Htry Hmiss. split; [| split].
  - unfold authorize_oauth, bind, try_except, lift, dict_getitem.
    rewrite Htry, Hmiss. reflexivity.
  - reflexivity.
  - pose proof (framing_authorize_oauth_try self st) as [Hh _].
    rewrite Htry in Hh. exact Hh.
Qed.

(** When the token has the key, the header is set from it. *)
Lemma authorize_oauth_sets_header :
  forall (self : ElectronBond) (st st' : State) (token : list (string * pyval))
         (access : pyval),
    authorize_oauth_try self st = (Ok token, st') ->
    dict_get "access_token" token = Some access ->
    authorize_oauth self st =
      (Ok access,
       mkState (<["Authorization" := "Bearer " +:+ py_str access]> (st_headers st'))
               (st_world st') (st_sent st')).
Proof.
  intros self st st' token access Htry Hget.
  unfold authorize_oauth, bind, try_except, lift, dict_getitem.
  rewrite Htry, Hget. reflexivity.
Qed.
End OAuth.

Section Frame.
Context `{L : Libs}.
Variable catches : exn -> bool.

Lemma framing_in_try {A} (current_json : pyval) (body : M A) :
  framing body -> framing (in_try catches current_json body).
Proof.
  intro Hb. unfold in_try. apply framing_try_except; [exact Hb |].
  intro e. apply framing_raise.
Qed.

Lemma framing_while_head (url : string) (params : list (string * pyval))
      (current_json : pyval) :
  framing (while_head catches url params current_json).
Proof.
  unfold while_head. apply framing_in_try.
  apply framing_bind; [apply framing_lift | intro results].
  apply framing_bind; [apply framing_lift | intro items].
  destruct items; apply framing_ret.
Qed.

Lemma framing_after_for (self : ElectronBond) (url : string)
      (params : list (string * pyval)) (current_json : pyval) :
  framing (after_for catches self url params current_json).
Proof.
  unfold after_for. apply framing_bind.
  - apply framing_in_try.
    apply framing_bind; [apply framing_lift | intro next].
    destruct (negb (truthy next)); [apply framing_ret |].
    apply framing_bind; [apply framing_lift | intro page].
    apply framing_bind; [apply framing_lift | intro page'].
    apply framing_bind; [apply framing_http_meth_factory | intro current_page].
    apply framing_bind; [apply framing_lift | intro current_json'].
    apply framing_ret.
  - intros [[params' current_json'] |]; [apply framing_while_head | apply framing_ret].
Qed.

Lemma framing_generator_next (self : ElectronBond) (g : generator) :
  framing (generator_next catches self g).
Proof.
  destruct g as [url args kwargs | url params current_json pending |]; simpl.
  - apply framing_bind; [apply framing_lift | intro pk].
    apply framing_bind; [apply framing_http_meth_factory | intro current_page].
    apply framing_bind; [apply framing_lift | intro current_json].
    apply framing_while_head.
  - destruct pending; [apply framing_after_for | apply framing_ret].
  - apply framing_ret.
Qed.

Lemma frames_run_op (self : ElectronBond) (op : client_op) (st : State) :
  frames st (run_op catches self op st).
Proof.
  destruct op; simpl; [apply framing_http_meth_factory | apply framing_generator_next].
Qed.

Lemma frames_run_ops (self : ElectronBond) (ops : list client_op) (st : State) :
  frames st (run_ops catches self ops st).
Proof.
  revert st. induction ops as [| op ops IH]; intro st; simpl.
  - apply frames_refl.
  - eapply frames_trans; [apply frames_run_op | apply IH].
Qed.

(** C9: once the session's default [Authorization] header has a value,
    any sequence of proxy verb calls and of steps of [get_paged] generators
    leaves it at that value, and every request made on the session during
    the sequence is made under it.  Only [authorize] and [authorize_oauth]
    write the header.  (How the library merges a caller's own [headers]
    keyword argument into a single request is not the client's doing.) *)
Theorem authorization_header_persists :
  forall (self : ElectronBond) (ops : list client_op) (st : State) (v : string),
    st_headers st !! "Authorization" = Some v ->
    st_headers (run_ops catches self ops st) !! "Authorization" = Some v /\
    Forall (fun r => req_headers r !! "Authorization" = Some v)
           (sent_since st (run_ops catches self ops st)).
Proof.
  intros self ops st v Hv.
  apply frames_carry; [apply frames_run_ops | exact Hv].
Qed.
End Frame.

Section Pages.
Context `{L : Libs}.
Variable catches : exn -> bool.

Lemma dict_get_set_eq {V} (k : string) (v : V) (d : list (string * V)) :
  dict_get k (dict_set k v d) = Some v.
Proof.
  induction d as [| [k' v'] d IH]; simpl.
  - rewrite String.eqb_refl. reflexivity.
  - destruct (String.eqb k k') eqn:E; simpl.
    + rewrite String.eqb_refl. reflexivity.
    + rewrite E. exact IH.
Qed.

Lemma page_results_wf (kvs : list (string * pyval)) (rs : list pyval) :
  dict_get "results" kvs = Some (PList rs) -> page_results (PDict kvs) = rs.
Proof. intro H. unfold page_results, py_getitem. rewrite H. reflexivity. Qed.

(** The head of the [while] on a well-formed page: the first item is
    yielded, or the body ends when there is none. *)
Lemma while_head_wf (url : string) (params kvs : list (string * pyval))
      (rs : list pyval) (st : State) :
  dict_get "results" kvs = Some (PList rs) ->
  while_head catches url params (PDict kvs) st =
    (Ok match rs with
        | [] => None
        | obj :: rest => Some (obj, GenSuspended url params (PDict kvs) rest)
        end, st).
Proof.
  intro H. unfold while_head, in_try, try_except, bind, lift, py_getitem.
  rewrite H. simpl. destruct rs; reflexivity.
Qed.

(** After the last item of a page without a truthy [next]: the body ends,
    and nothing is fetched. *)
Lemma after_for_last (self : ElectronBond) (url : string)
      (params kvs : list (string * pyval)) (st : State) :
  page_has_next (PDict kvs) = false ->
  after_for catches self url params (PDict kvs) st = (Ok None, st).
Proof.
  unfold page_has_next, after_for, in_try, try_except, bind, lift. simpl.
  destruct (dict_get "next" kvs) as [v |]; intro H; simpl in *.
  - rewrite H. reflexivity.
  - reflexivity.
Qed.

(** After the last item of a page with a truthy [next]: the next page is
    fetched and, when the fetch and the parse succeed, the [while] goes on
    with it. *)
Lemma after_for_next (self : ElectronBond) (url : string)
      (params kvs : list (string * pyval)) (st st1 : State)
      (n : Z) (resp : Response) (j : pyval) :
  page_has_next (PDict kvs) = true ->
  dict_get "page" params = Some (PInt n) ->
  get self url [] [("params"%string, PDict (dict_set "page" (PInt (n + 1)) params))] st
    = (Ok resp, st1) ->
  json_loads (text resp) = Ok j ->
  after_for catches self url params (PDict kvs) st =
    while_head catches url (dict_set "page" (PInt (n + 1)) params) j st1.
Proof.
  unfold page_has_next, after_for, in_try, try_except, bind, lift, dict_getitem,
    Response_json. simpl.
  intros Hnext Hpage Hget Hjson.
  destruct (dict_get "next" kvs) as [v |]; simpl in *; [| discriminate].
  rewrite Hnext. simpl. rewrite Hpage. simpl. rewrite Hget. rewrite Hjson.
  reflexivity.
Qed.

(** A [get] of the paginator for page [n] in a world that serves [j] for
    that page. *)
Lemma get_served (self : ElectronBond) (url b : string) (p : ParseResult)
      (params : list (string * pyval)) (more : list (string * pyval))
      (st : State) (n : Z) (j : pyval) (rest : list pyval) :
  config self !! "baseurl" = Some b ->
  urlparse url = Ok p ->
  dict_get "page" params = Some (PInt n) ->
  serves (st_world st) n (j :: rest) ->
  exists resp st1,
    get self url [] (("params"%string, PDict params) :: more) st = (Ok resp, st1) /\
    json_loads (text resp) = Ok j /\
    serves (st_world st1) (n + 1) rest /\
    st_sent st1 = st_sent st ++
      [mkRequest "get" (rstrip "/" b +:+ "/" +:+ lstrip "/" (path p)) []
                 (("params"%string, PDict params) :: more) (st_headers st)].
Proof.
  intros Hb Hp Hpage Hserves. unfold get.
  rewrite (http_meth_factory_eq "get" self url [] _ st b p Hb Hp). cbv zeta.
  set (req := mkRequest "get" _ _ _ _).
  destruct (Hserves req) as [resp [w' [Hsend [Hjson Hrest]]]].
  - reflexivity.
  - unfold req_page. simpl. exact Hpage.
  - exists resp. eexists. rewrite Hsend. simpl.
    split; [reflexivity |]. split; [exact Hjson |]. split; [exact Hrest | reflexivity].
Qed.

(** The items still pending in the [for] loop come out first, one per
    [next] and without touching the state. *)
Lemma consume_pending (self : ElectronBond) (url : string)
      (params : list (string * pyval)) (j : pyval) (st : State)
      (pending : list pyval) (fuel : nat) :
  consume catches (length pending + fuel) self (GenSuspended url params j pending) st =
    (pending ++ fst (fst (consume catches fuel self (GenSuspended url params j []) st)),
     snd (fst (consume catches fuel self (GenSuspended url params j []) st)),
     snd (consume catches fuel self (GenSuspended url params j []) st)).
Proof.
  induction pending as [| obj pending IH].
  - simpl. destruct (consume catches fuel self _ st) as [[items e] st']. reflexivity.
  - change (length (obj :: pending) + fuel)%nat with (S (length pending + fuel)).
    cbn [consume generator_next]. unfold ret at 1. rewrite IH. reflexivity.
Qed.

Lemma pages_read_pos (pages : list pyval) :
  pages <> [] -> (0 < pages_read pages)%nat.
Proof.
  destruct pages as [| j rest]; [congruence |]. intros _. simpl.
  destruct (page_results j); [lia |]. destruct (page_has_next j); lia.
Qed.

Lemma paged_items_cons (j : pyval) (rest : list pyval) :
  paged_items (j :: rest) =
    match page_results j with
    | [] => []
    | rs => rs ++ (if page_has_next j then paged_items rest else [])
    end.
Proof. reflexivity. Qed.

Lemma pages_read_cons (j : pyval) (rest : list pyval) :
  pages_read (j :: rest) =
    match page_results j with
    | [] => 1%nat
    | _ => if page_has_next j then S (pages_read rest) else 1%nat
    end.
Proof. reflexivity. Qed.

Lemma has_last_page_cons (j : pyval) (rest : list pyval) :
  has_last_page (j :: rest) =
    match page_results j with
    | [] => true
    | _ => if page_has_next j then has_last_page rest else true
    end.
Proof. reflexivity. Qed.

(** From the moment a page has been fetched and parsed: the rest of the
    run over well-formed pages. *)
Lemma consume_pages (self : ElectronBond) (url b : string) (p : ParseResult) :
  config self !! "baseurl" = Some b ->
  urlparse url = Ok p ->
  forall (rest : list pyval) (j : pyval) (g : generator) (st st1 : State)
         (params : list (string * pyval)) (n : Z) (fuel : nat),
    generator_next catches self g st = while_head catches url params j st1 ->
    dict_get "page" params = Some (PInt n) ->
    serves (st_world st1) (n + 1) rest ->
    Forall well_formed_page (j :: rest) ->
    has_last_page (j :: rest) = true ->
    (length (paged_items (j :: rest)) < fuel)%nat ->
    exists st',
      consume catches fuel self g st = ((paged_items (j :: rest), Exhausted), st') /\
      length (st_sent st') = (length (st_sent st1) + (pages_read (j :: rest) - 1))%nat.
Proof.
  intros Hb Hp rest.
  induction rest as [| j' rest' IH];
    intros j g st st1 params n fuel Hnext Hpage Hserves Hwf Hlast Hfuel.
  all: inversion Hwf as [| ? ? [kvs [rs [-> Hrs]]] Hwf']; subst.
  all: destruct fuel as [| fuel]; [lia |].
  all: cbn [consume]; rewrite Hnext, (while_head_wf url params kvs rs st1 Hrs).
  all: rewrite paged_items_cons, pages_read_cons.
  all: rewrite paged_items_cons in Hfuel; rewrite has_last_page_cons in Hlast.
  all: rewrite (page_results_wf kvs rs Hrs) in *.
  all: destruct rs as [| obj rs].
  all: try (exists st1; split; [reflexivity | lia]).
  - (* the last page the world has *)
    destruct (page_has_next (PDict kvs)) eqn:Hn; [discriminate |].
    rewrite app_nil_r in *. simpl in Hfuel.
    replace fuel with (length rs + S (fuel - length rs - 1))%nat by lia.
    rewrite consume_pending. cbn [consume generator_next].
    rewrite (after_for_last self url params kvs st1 Hn). simpl.
    rewrite app_nil_r. exists st1. split; [reflexivity | lia].
  - destruct (page_has_next (PDict kvs)) eqn:Hn.
    + (* a further page is fetched *)
      rewrite length_app in Hfuel.
      change (length (obj :: rs)) with (S (length rs)) in Hfuel.
      replace fuel with (length rs + (fuel - length rs))%nat by lia.
      rewrite consume_pending.
      destruct (get_served self url b p (dict_set "page" (PInt (n + 1)) params) [] st1
                           (n + 1) j' rest' Hb Hp (dict_get_set_eq _ _ _) Hserves) as
        [resp [st2 [Hget [Hjson [Hserves' Hsent]]]]].
      pose proof (after_for_next self url params kvs st1 st2 n resp j' Hn Hpage Hget Hjson)
        as Hafter.
      assert (Hnext' : generator_next catches self (GenSuspended url params (PDict kvs) []) st1
                       = while_head catches url (dict_set "page" (PInt (n + 1)) params) j' st2)
        by exact Hafter.
      destruct (IH j' (GenSuspended url params (PDict kvs) []) st1 st2
                   (dict_set "page" (PInt (n + 1)) params) (n + 1) (fuel - length rs)%nat
                   Hnext' (dict_get_set_eq _ _ _) Hserves' Hwf' Hlast ltac:(lia))
        as [st' [Hrun Hcount]].
      rewrite Hrun. cbn [fst snd]. exists st'. split; [reflexivity |].
      rewrite Hcount, Hsent, length_app. cbn [length].
      pose proof (pages_read_pos (j' :: rest') ltac:(discriminate)). lia.
    + (* this page is the last one read *)
      rewrite app_nil_r in *. simpl in Hfuel.
      replace fuel with (length rs + S (fuel - length rs - 1))%nat by lia.
      rewrite consume_pending. cbn [consume generator_next].
      rewrite (after_for_last self url params kvs st1 Hn). simpl.
      rewrite app_nil_r. exists st1. split; [reflexivity | lia].
Qed.

(** C1: in a world that answers the [get] for page [n], [n + 1], ... with
    the well-formed pages [pages], one of which ends the sequence, a
    consumer of [get_paged] receives exactly [paged_items pages] (each
    page's [results] in array order, pages in page-number order, through
    the first page whose [results] is empty or whose [next] is absent or
    falsy) and then [StopIteration]; the pages read are those up to that
    page and no more.  [n] is 1 unless the caller's [params] set [page]. *)
Theorem get_paged_yields_pages_in_order :
  forall (self : ElectronBond) (url b : string) (p : ParseResult)
         (args : list pyval) (kwargs params0 kwargs' : list (string * pyval))
         (n : Z) (pages : list pyval) (st : State) (fuel : nat),
    config self !! "baseurl" = Some b ->
    urlparse url = Ok p ->
    initial_params kwargs = Ok (params0, kwargs') ->
    dict_get "page" params0 = Some (PInt n) ->
    serves (st_world st) n pages ->
    Forall well_formed_page pages ->
    has_last_page pages = true ->
    (length (paged_items pages) < fuel)%nat ->
    exists st',
      consume catches fuel self (get_paged url args kwargs) st =
        ((paged_items pages, Exhausted), st') /\
      length (sent_since st st') = pages_read pages.
Proof.
  intros self url b p args kwargs params0 kwargs' n pages st fuel
         Hb Hp Hinit Hpage Hserves Hwf Hlast Hfuel.
  destruct pages as [| j rest]; [discriminate |].
  destruct (get_served self url b p params0 kwargs' st n j rest Hb Hp Hpage Hserves)
    as [resp [st1 [Hget [Hjson [Hserves' Hsent]]]]].
  assert (Hnext : generator_next catches self (get_paged url args kwargs) st =
                  while_head catches url params0 j st1).
  { unfold get_paged, generator_next, bind, lift. rewrite Hinit. cbn [fst snd].
    rewrite Hget. unfold Response_json. rewrite Hjson. reflexivity. }
  destruct (consume_pages self url b p Hb Hp rest j _ st st1 params0 n fuel
                          Hnext Hpage Hserves' Hwf Hlast Hfuel) as [st' [Hrun Hcount]].
  exists st'. split; [exact Hrun |].
  unfold sent_since. rewrite length_drop, Hcount, Hsent, length_app. cbn [length].
  pose proof (pages_read_pos (j :: rest) ltac:(discriminate)). lia.
Qed.
End Pages.

Section Shape.
Context `{L : Libs}.

Lemma getitem_fails_when_get_fails (j : pyval) (e : exn) :
  py_get j "next" = Raise e -> exists e', py_getitem j "results" = Raise e'.
Proof.
  destruct j; simpl; try (intros _; eexists; reflexivity).
  destruct (dict_get "next" kvs); discriminate.
Qed.

(** The head of the [while] on a page the paginator cannot read. *)
Lemma while_head_bad_shape (catches : exn -> bool) (url : string)
      (params : list (string * pyval)) (j : pyval) (st : State) :
  (forall e, isinstance_Exception e = true -> catches e = true) ->
  page_shape_ok j = false ->
  while_head catches url params j st = (Raise (ReturnError_for j), st).
Proof.
  intros Hc Hbad.
  unfold while_head, in_try, try_except, bind, lift, raise, page_shape_ok in *.
  destruct (py_getitem j "results") as [results | e] eqn:Hres.
  - destruct (py_items results) as [items | e] eqn:Hitems.
    + destruct (py_get j "next") as [nx | e] eqn:Hnx; [discriminate |].
      destruct (getitem_fails_when_get_fails j e Hnx) as [e' He']. congruence.
    + rewrite Hc; [reflexivity |].
      destruct results; simpl in Hitems; inversion Hitems; reflexivity.
  - rewrite Hc; [reflexivity |].
    destruct j; simpl in Hres; inversion Hres; try reflexivity.
    destruct (dict_get "results" kvs); inversion Hres. reflexivity.
Qed.

Lemma reads_page_next (catches : exn -> bool) (self : ElectronBond) (g : generator)
      (st st1 : State) (j : pyval) :
  reads_page self g st j st1 ->
  exists url params, generator_next catches self g st = while_head catches url params j st1.
Proof.
  intros [url args kwargs pk resp st0 st1' j' Hinit Hget Hjson
         | url params cj nx page page' resp st0 st1' j' Hnx Htruthy Hpage Hadd Hget Hjson].
  - exists url, (fst pk). unfold generator_next, bind, lift.
    rewrite Hinit, Hget, Hjson. reflexivity.
  - exists url, (dict_set "page" page' params).
    unfold generator_next, after_for, in_try, try_except, bind, lift, dict_getitem.
    rewrite Hnx, Htruthy. cbn [negb]. rewrite Hpage, Hadd, Hget, Hjson. reflexivity.
Qed.

(** C6: when a [next] on the generator reads a page, first or later, on
    which [results] cannot be subscripted, measured or iterated, or [next]
    cannot be read, that [next] raises [ElectronBondReturnError], and the
    message ends with the [str] of that very page.  Both source files. *)
Theorem bad_page_raises_ReturnError :
  forall (self : ElectronBond) (g : generator) (st st1 : State) (j : pyval),
    reads_page self g st j st1 ->
    page_shape_ok j = false ->
    client_next self g st =
      (Raise (Exn ElectronBondReturnError
                  ("get_paged doesn't know how to handle " +:+ py_str j)), st1) /\
    web_client_next self g st =
      (Raise (Exn ElectronBondReturnError
                  ("get_paged doesn't know how to handle " +:+ py_str j)), st1).
Proof.
  intros self g st st1 j Hread Hbad. unfold client_next, web_client_next. split.
  - destruct (reads_page_next isinstance_Exception self g st st1 j Hread)
      as [url [params ->]].
    apply while_head_bad_shape; [auto | exact Hbad].
  - destruct (reads_page_next bare_except self g st st1 j Hread) as [url [params ->]].
    apply while_head_bad_shape; [reflexivity | exact Hbad].
Qed.
End Shape.

Section Forwarding.
Context `{L : Libs}.
Variable catches : exn -> bool.

Lemma frames_consume (self : ElectronBond) (fuel : nat) :
  forall (g : generator) (st : State), frames st (snd (consume catches fuel self g st)).
Proof.
  induction fuel as [| fuel IH]; intros g st; cbn [consume].
  - apply frames_refl.
  - pose proof (framing_generator_next catches self g st) as Hstep.
    destruct (generator_next catches self g st) as [[[[obj g'] |] | e] st1];
      cbn [snd] in *; try exact Hstep.
    specialize (IH g' st1).
    destruct (consume catches fuel self g' st1) as [[items e] st2]. cbn [snd] in *.
    eapply frames_trans; eassumption.
Qed.

Lemma sent_since_step (st st1 st2 : State) (l : list Request) :
  st_sent st1 = st_sent st ++ l ->
  frames st1 st2 ->
  sent_since st st2 = l ++ sent_since st1 st2.
Proof.
  intros H1 [_ [new [H2 _]]]. unfold sent_since.
  rewrite H2, drop_app_length, H1, <- app_assoc, drop_app_length. reflexivity.
Qed.

Lemma sent_since_same (st : State) : sent_since st st = [].
Proof. unfold sent_since. apply drop_all. Qed.

(** What a call of [self.get] leaves behind: nothing, when the URL does not
    parse or [baseurl] is not configured; otherwise one [get] on the
    session with the arguments as given. *)
Lemma get_sends (self : ElectronBond) (url : string) (args : list pyval)
      (kwargs : list (string * pyval)) (st : State) :
  (snd (get self url args kwargs st) = st /\
   exists e, fst (get self url args kwargs st) = Raise e) \/
  (exists req,
      req_meth req = "get"%string /\ req_args req = args /\ req_kwargs req = kwargs /\
      st_sent (snd (get self url args kwargs st)) = st_sent st ++ [req]).
Proof.
  unfold get, http_meth_factory, bind, lift, config_getitem.
  destruct (urlparse url) as [p | e]; [| left; split; [reflexivity | eexists; reflexivity]].
  destruct (config self !! "baseurl") as [b |];
    [| left; split; [reflexivity | eexists; reflexivity]].
  right. rewrite session_meth_eq.
  eexists (mkRequest "get" _ args kwargs _).
  destruct (session_send _ _) as [[resp | e] w']; cbn;
    (split; [reflexivity | split; [reflexivity | split; reflexivity]]).
Qed.

(** The head of the [while] leaves the state alone, and a generator it
    suspends keeps the [params] it was given. *)
Lemma while_head_cases (url : string) (params : list (string * pyval)) (j : pyval)
      (st : State) :
  snd (while_head catches url params j st) = st /\
  match fst (while_head catches url params j st) with
  | Ok (Some (_, g')) => exists rest, g' = GenSuspended url params j rest
  | _ => True
  end.
Proof.
  unfold while_head, in_try, try_except, bind, lift, raise, ret.
  destruct (py_getitem j "results") as [results | e]; cbn.
  - destruct (py_items results) as [[| obj rest] | e]; cbn.
    + split; [reflexivity | exact I].
    + split; [reflexivity | eexists; reflexivity].
    + destruct (catches e); cbn; split; (reflexivity || exact I).
  - destruct (catches e); cbn; split; (reflexivity || exact I).
Qed.

(** A [next] that finds the [for] loop used up: either nothing is sent and
    nothing more is yielded, or exactly one [get] is sent, carrying only
    [params] with its [page] incremented. *)
Lemma after_for_sends (self : ElectronBond) (url : string)
      (params : list (string * pyval)) (cj : pyval) (st : State) :
  (snd (after_for catches self url params cj st) = st /\
   match fst (after_for catches self url params cj st) with
   | Ok (Some _) => False
   | _ => True
   end) \/
  (exists page page' req,
      dict_get "page" params = Some page /\ py_iadd1 page = Ok page' /\
      req_meth req = "get"%string /\ req_args req = [] /\
      req_kwargs req = [("params"%string, PDict (dict_set "page" page' params))] /\
      st_sent (snd (after_for catches self url params cj st)) = st_sent st ++ [req] /\
      match fst (after_for catches self url params cj st) with
      | Ok (Some (_, g')) =>
          exists j rest, g' = GenSuspended url (dict_set "page" page' params) j rest
      | _ => True
      end).
Proof.
  unfold after_for, in_try, try_except, bind, lift, raise, ret, dict_getitem.
  destruct (py_get cj "next") as [nx | e];
    [| left; destruct (catches e); cbn; split; (reflexivity || exact I)].
  destruct (truthy nx); cbn [negb];
    [| left; cbn; split; (reflexivity || exact I)].
  destruct (dict_get "page" params) as [page |] eqn:Hpage;
    [| left; destruct (catches _); cbn; split; (reflexivity || exact I)].
  destruct (py_iadd1 page) as [page' | e] eqn:Hadd;
    [| left; destruct (catches e); cbn; split; (reflexivity || exact I)].
  set (kw := [("params"%string, PDict (dict_set "page" page' params))]).
  destruct (get_sends self url [] kw st) as [[Hst [e He]] | [req [Hm [Ha [Hk Hs]]]]].
  - left. destruct (get self url [] kw st) as [r st1]. cbn in Hst, He. subst.
    destruct (catches e); cbn; split; (reflexivity || exact I).
  - right. exists page, page', req.
    repeat (split; [first [reflexivity | assumption] |]).
    destruct (get self url [] kw st) as [[resp | e] st1]; cbn [snd] in Hs.
    + destruct (Response_json resp) as [j | e].
      * pose proof (while_head_cases url (dict_set "page" page' params) j st1) as [Hw1 Hw2].
        destruct (while_head catches url (dict_set "page" page' params) j st1)
          as [r st2]. cbn [fst snd] in *. subst st2. split; [exact Hs |].
        destruct r as [[[obj g'] |] |]; try exact I.
        destruct Hw2 as [rest ->]. exists j, rest. reflexivity.
      * destruct (catches e); cbn; split; (exact Hs || exact I).
    + destruct (catches e); cbn; split; (exact Hs || exact I).
Qed.

(** Every fetch a suspended generator still makes forwards [params] alone,
    one page further each time. *)
Lemma later_fetches_consume (self : ElectronBond) (fuel : nat) :
  forall (url : string) (params : list (string * pyval)) (cj : pyval)
         (pending : list pyval) (st : State),
    later_fetches params
      (sent_since st (snd (consume catches fuel self
                                   (GenSuspended url params cj pending) st))).
Proof.
  induction fuel as [| fuel IH]; intros url params cj pending st; cbn [consume].
  - cbn [snd]. rewrite sent_since_same. exact I.
  - destruct pending as [| obj pending]; cbn [generator_next].
    + destruct (after_for_sends self url params cj st)
        as [[Hst Hr] | [page [page' [req [Hp [Hadd [Hm [Ha [Hk [Hs Hr]]]]]]]]]].
      * destruct (after_for catches self url params cj st) as [[[[obj g'] |] | e] st1];
          cbn [fst snd] in *; subst; try contradiction;
          rewrite sent_since_same; exact I.
      * destruct (after_for catches self url params cj st) as [[[[obj g'] |] | e] st1];
          cbn [fst snd] in *.
        -- destruct Hr as [j [rest ->]].
           specialize (IH url (dict_set "page" page' params) j rest st1).
           pose proof (frames_consume self fuel
                         (GenSuspended url (dict_set "page" page' params) j rest) st1) as Hf.
           destruct (consume catches fuel self _ st1) as [[items e] st2].
           cbn [snd] in *. rewrite (sent_since_step st st1 st2 [req] Hs Hf).
           cbn [app later_fetches]. exists page, page'. repeat (split; [assumption |]).
           exact IH.
        -- rewrite (sent_since_step st st1 st1 [req] Hs (frames_refl st1)).
           rewrite sent_since_same. cbn [app later_fetches].
           exists page, page'. repeat (split; [assumption |]). exact I.
        -- rewrite (sent_since_step st st1 st1 [req] Hs (frames_refl st1)).
           rewrite sent_since_same. cbn [app later_fetches].
           exists page, page'. repeat (split; [assumption |]). exact I.
    + unfold ret. specialize (IH url params cj pending st).
      destruct (consume catches fuel self _ st) as [[items e] st2]. exact IH.
Qed.

Lemma dict_del_absent {V} (k : string) (d : list (string * V)) :
  dict_get k d = None -> dict_del k d = d.
Proof.
  induction d as [| [k' v'] d IH]; simpl; [reflexivity |].
  destruct (String.eqb k k'); [discriminate |]. intro H. rewrite (IH H). reflexivity.
Qed.

Lemma dict_get_del {V} (k : string) (d : list (string * V)) :
  dict_get k (dict_del k d) = None.
Proof.
  induction d as [| [k' v'] d IH]; simpl; [reflexivity |].
  destruct (String.eqb k k') eqn:E; [exact IH |]. simpl. rewrite E. exact IH.
Qed.

(** Lines 113-116 in the words of the specification: [{page: 1}] updated
    with the caller's [params], and the keyword arguments without that
    key. *)
Lemma initial_params_eq (kwargs params0 kwargs' : list (string * pyval)) :
  initial_params kwargs = Ok (params0, kwargs') ->
  params0 = dict_update [("page"%string, PInt 1)] (caller_params kwargs) /\
  kwargs' = dict_del "params" kwargs.
Proof.
  unfold initial_params, dict_contains, caller_params.
  destruct (dict_get "params" kwargs) as [v |] eqn:Hget.
  - destruct v; try discriminate. intro H; inversion H. split; reflexivity.
  - intro H; inversion H; subst. split; [reflexivity |].
    symmetry. apply dict_del_absent. exact Hget.
Qed.

End Forwarding.

(** * Transport errors *)

Section Transport.
Context `{L : Libs}.

(** An exception of the first fetch, or of its parse, leaves the generator
    as it is: these lines are before the [try]. *)
Lemma first_fetch_error_propagates (catches : exn -> bool) (self : ElectronBond)
      (url : string) (args : list pyval) (kwargs : list (string * pyval))
      (pk : list (string * pyval) * list (string * pyval)) (e : exn) (st st1 : State) :
  initial_params kwargs = Ok pk ->
  get self url [] (("params"%string, PDict (fst pk)) :: snd pk) st = (Raise e, st1) ->
  generator_next catches self (get_paged url args kwargs) st = (Raise e, st1).
Proof.
  intros Hinit Hget. unfold get_paged, generator_next, bind, lift.
  rewrite Hinit, Hget. reflexivity.
Qed.

(** An exception of a later fetch is inside the [try]: when the clause
    catches it, an [ElectronBondReturnError] about the page consumed before
    is raised in its place. *)
Lemma later_fetch_error_is_replaced (catches : exn -> bool) (self : ElectronBond)
      (url : string) (params : list (string * pyval)) (current_json next page page' : pyval)
      (e : exn) (st st1 : State) :
  py_get current_json "next" = Ok next ->
  truthy next = true ->
  dict_get "page" params = Some page ->
  py_iadd1 page = Ok page' ->
  get self url [] [("params"%string, PDict (dict_set "page" page' params))] st
    = (Raise e, st1) ->
  catches e = true ->
  generator_next catches self (GenSuspended url params current_json []) st =
    (Raise (ReturnError_for current_json), st1).
Proof.
  intros Hnx Htruthy Hpage Hadd Hget Hc.
  unfold generator_next, after_for, in_try, try_except, bind, lift, raise, dict_getitem.
  rewrite Hnx, Htruthy. cbn [negb]. rewrite Hpage, Hadd, Hget, Hc. reflexivity.
Qed.

(** A proxy verb hands on whatever the session raises. *)
Lemma proxy_verb_error_propagates (verb : string) (self : ElectronBond) (url b : string)
      (p : ParseResult) (args : list pyval) (kwargs : list (string * pyval))
      (e : exn) (w' : World) (st : State) :
  config self !! "baseurl" = Some b ->
  urlparse url = Ok p ->
  session_send (st_world st)
    (mkRequest verb (rstrip "/" b +:+ "/" +:+ lstrip "/" (path p)) args kwargs (st_headers st))
    = (Raise e, w') ->
  fst (http_meth_factory verb self url args kwargs st) = Raise e.
Proof.
  intros Hb Hp Hsend.
  rewrite (http_meth_factory_eq verb self url args kwargs st b p Hb Hp). cbv zeta.
  rewrite Hsend. reflexivity.
Qed.
End Transport.

(** C7 fails on the code for the pages after the first.  The server has
    one page, whose [next] is set; the [get] for page 2 raises a
    [ConnectionError] in the transport.  The consumer receives the items of
    page 1 and then, in place of the [ConnectionError], an
    [ElectronBondReturnError] whose message shows page 1. *)
Theorem later_page_transport_error_is_not_propagated :
  fst (@client_consume Mock.one_page 5 Mock.self (get_paged "objects/" [] [])
                       (Mock.st0 Mock.one_page 0%nat)) =
    ([PInt 1; PInt 2],
     Failed (Exn ElectronBondReturnError
                 ("get_paged doesn't know how to handle " +:+
                  "{'results': [1, 2], 'next': 'http://api.example/objects/?page=2'}"))) /\
  exists r,
    nth_error (@st_sent Mock.one_page
                 (snd (@client_consume Mock.one_page 5 Mock.self (get_paged "objects/" [] [])
                                       (Mock.st0 Mock.one_page 0%nat)))) 1 = Some r /\
    req_page r = Some (PInt 2) /\
    @session_send Mock.one_page 1%nat r = (Raise Mock.ConnectionError, 2%nat).
Proof.
  split.
  - vm_compute. reflexivity.
  - eexists. split; [vm_compute; reflexivity |]. split; vm_compute; reflexivity.
Qed.

(** * The statements at concrete inputs *)

Lemma two_pages_served : @serves Mock.two_pages 0%nat 1 [Mock.page1; Mock.page2].
Proof.
  intros r _ Hp. exists (mkResponse 200 "page1"), 1%nat.
  split; [| split; [reflexivity |]].
  - cbn. unfold Mock.paged_server. rewrite Hp. reflexivity.
  - intros r' _ Hp'. exists (mkResponse 200 "page2"), 2%nat.
    split; [| split; [reflexivity | exact I]].
    cbn. unfold Mock.paged_server. rewrite Hp'. reflexivity.
Defined.

Lemma two_pages_well_formed : Forall well_formed_page [Mock.page1; Mock.page2].
Proof.
  repeat constructor; eexists; eexists; (split; [reflexivity | reflexivity]).
Defined.

(** Pages [{results: [1, 2], next: ...}] and [{results: [3], next: null}]
    yield 1, 2, 3 and stop, after two fetches. *)
Lemma get_paged_yields_pages_in_order_witness :
  exists st',
    @consume Mock.two_pages isinstance_Exception 4 Mock.self
             (get_paged "objects/" [] []) (Mock.st0 Mock.two_pages 0%nat) =
      (([PInt 1; PInt 2; PInt 3], Exhausted), st') /\
    length (sent_since (Mock.st0 Mock.two_pages 0%nat) st') = 2%nat.
Proof.
  apply (@get_paged_yields_pages_in_order Mock.two_pages isinstance_Exception Mock.self
           "objects/" "http://api.example/" (mkParseResult "" "" "objects/" "" "" "")
           [] [] [("page"%string, PInt 1)] [] 1 [Mock.page1; Mock.page2]
           (Mock.st0 Mock.two_pages 0%nat) 4%nat).
  - vm_compute; reflexivity.
  - reflexivity.
  - reflexivity.
  - reflexivity.
  - exact two_pages_served.
  - exact two_pages_well_formed.
  - reflexivity.
  - vm_compute; lia.
Defined.

(** A first page [{results: [], next: null}] yields nothing. *)
Example get_paged_empty_first_page :
  fst (@client_consume Mock.only_empty_page 3 Mock.self (get_paged "objects/" [] [])
                       (Mock.st0 Mock.only_empty_page 0%nat)) = ([], Exhausted).
Proof. vm_compute. reflexivity. Qed.

(** The requests of a run over two pages, with caller keyword arguments:
    [timeout] travels with the first fetch only. *)
Example get_paged_requests :
  map req_kwargs
      (@st_sent Mock.two_pages
         (snd (@client_consume Mock.two_pages 4 Mock.self
                 (get_paged "objects/" []
                    [("params"%string, PDict [("q"%string, PStr "a")]);
                     ("timeout"%string, PInt 3)])
                 (Mock.st0 Mock.two_pages 0%nat)))) =
    [[("params"%string, PDict [("page"%string, PInt 1); ("q"%string, PStr "a")]);
      ("timeout"%string, PInt 3)];
     [("params"%string, PDict [("page"%string, PInt 2); ("q"%string, PStr "a")])]].
Proof. vm_compute. reflexivity. Qed.

(** [patch] of a URL on another host goes to the configured host. *)
Lemma proxy_verb_targets_baseurl_witness :
  exists f,
    @proxy_method Mock.two_pages proxy_verbs "patch" = Some f /\
    sent_since (Mock.st0 Mock.two_pages 0%nat)
               (snd (f Mock.self "http://evil.example//objects/7?x=1" [] []
                       (Mock.st0 Mock.two_pages 0%nat))) =
      [mkRequest "patch" "http://api.example/objects/7" [] []
                 (@st_headers Mock.two_pages (Mock.st0 Mock.two_pages 0%nat))].
Proof.
  apply (@proxy_verb_targets_baseurl Mock.two_pages proxy_verbs "patch" Mock.self
           "http://evil.example//objects/7?x=1" [] [] (Mock.st0 Mock.two_pages 0%nat)
           "http://api.example/" (mkParseResult "http" "" "//objects/7" "" "" "")).
  - left; reflexivity.
  - simpl; tauto.
  - vm_compute; reflexivity.
  - vm_compute; reflexivity.
Defined.

(** Status 200 and body [{token: abc}]: [authorize] returns [abc] and a
    later request carries [Authorization: Bearer abc]. *)
Lemma authorize_returns_token_witness :
  @authorize (Mock.token_libs 200 "token_abc") Mock.self
             (Mock.st0 (Mock.token_libs 200 "token_abc") 0%nat) =
    (Ok (PStr "abc"),
     @mkState (Mock.token_libs 200 "token_abc") (<["Authorization" := "Bearer abc"]>
              (@st_headers (Mock.token_libs 200 "token_abc")
                           (Mock.st0 (Mock.token_libs 200 "token_abc") 0%nat)))
             1%nat
             [mkRequest "post" "http://api.example/get-token/" []
                [("data"%string, PDict [("password"%string, PStr "p");
                                        ("username"%string, PStr "u")])]
                (@st_headers (Mock.token_libs 200 "token_abc")
                             (Mock.st0 (Mock.token_libs 200 "token_abc") 0%nat))]).
Proof.
  apply (@authorize_returns_token (Mock.token_libs 200 "token_abc") Mock.self
           (Mock.st0 (Mock.token_libs 200 "token_abc") 0%nat)
           "http://api.example/" "u" "p" (mkResponse 200 "token_abc") 1%nat
           (PDict [("token"%string, PStr "abc")]) "abc").
  - vm_compute; reflexivity.
  - vm_compute; reflexivity.
  - vm_compute; reflexivity.
  - reflexivity.
  - left; reflexivity.
  - reflexivity.
  - reflexivity.
Defined.

(** Status 403: [authorize] raises [ElectronBondAuthError] naming 403. *)
Lemma authorize_rejects_other_status_witness :
  fst (@authorize (Mock.token_libs 403 "token_abc") Mock.self
                  (Mock.st0 (Mock.token_libs 403 "token_abc") 0%nat)) =
    Raise (Exn ElectronBondAuthError "Failed to authorize with status: 403").
Proof.
  rewrite (@authorize_rejects_other_status (Mock.token_libs 403 "token_abc") Mock.self
             (Mock.st0 (Mock.token_libs 403 "token_abc") 0%nat)
             "http://api.example/" "u" "p" (mkResponse 403 "token_abc") 1%nat).
  - reflexivity.
  - vm_compute; reflexivity.
  - vm_compute; reflexivity.
  - vm_compute; reflexivity.
  - reflexivity.
  - simpl; lia.
  - simpl; lia.
Defined.

(** C5 as stated is false: a [KeyboardInterrupt] raised by the token fetch
    leaves [authorize_oauth] as a [KeyboardInterrupt]. *)
Lemma authorize_oauth_KeyboardInterrupt_escapes :
  ~ (forall (L : Libs) (self : ElectronBond) (st st' : State) (e : exn),
        authorize_oauth_try self st = (Raise e, st') ->
        exists msg, fst (authorize_oauth self st) = Raise (Exn ElectronBondAuthError msg)).
Proof.
  intro claim.
  destruct (claim (Mock.oauth_libs (Raise Mock.KeyboardInterrupt)) Mock.self
                  (Mock.st0 (Mock.oauth_libs (Raise Mock.KeyboardInterrupt)) 0%nat)
                  (Mock.st0 (Mock.oauth_libs (Raise Mock.KeyboardInterrupt)) 1%nat)
                  Mock.KeyboardInterrupt) as [msg Hmsg].
  - reflexivity.
  - vm_compute in Hmsg. discriminate Hmsg.
Qed.

(** A [ConnectionError] of the token fetch comes out as
    [ElectronBondAuthError] with its message. *)
Lemma authorize_oauth_wraps_Exception_witness :
  fst (@authorize_oauth (Mock.oauth_libs (Raise Mock.ConnectionError)) Mock.self
         (Mock.st0 (Mock.oauth_libs (Raise Mock.ConnectionError)) 0%nat)) =
    Raise (Exn ElectronBondAuthError
               "Failed to authorize OAuth with message: Max retries exceeded").
Proof.
  destruct (@authorize_oauth_wraps_Exception (Mock.oauth_libs (Raise Mock.ConnectionError))
              Mock.self (Mock.st0 (Mock.oauth_libs (Raise Mock.ConnectionError)) 0%nat)
              (Mock.st0 (Mock.oauth_libs (Raise Mock.ConnectionError)) 1%nat)
              Mock.ConnectionError) as [Hrun _].
  - reflexivity.
  - reflexivity.
  - rewrite Hrun. reflexivity.
Defined.

(** A token without [access_token]: the [KeyError] comes out as it is. *)
Lemma authorize_oauth_missing_access_token_witness :
  fst (@authorize_oauth (Mock.oauth_libs (Ok [("token_type"%string, PStr "Bearer")]))
         Mock.self
         (Mock.st0 (Mock.oauth_libs (Ok [("token_type"%string, PStr "Bearer")])) 0%nat)) =
    Raise (Exn KeyError "'access_token'").
Proof.
  destruct (@authorize_oauth_missing_access_token
              (Mock.oauth_libs (Ok [("token_type"%string, PStr "Bearer")])) Mock.self
              (Mock.st0 (Mock.oauth_libs (Ok [("token_type"%string, PStr "Bearer")])) 0%nat)
              (Mock.st0 (Mock.oauth_libs (Ok [("token_type"%string, PStr "Bearer")])) 1%nat)
              [("token_type"%string, PStr "Bearer")]) as [Hrun _].
  - reflexivity.
  - reflexivity.
  - rewrite Hrun. reflexivity.
Defined.

(** A first page without [results]: [ElectronBondReturnError] showing it. *)
Lemma bad_page_raises_ReturnError_witness :
  fst (@client_next Mock.only_no_results Mock.self (get_paged "objects/" [] [])
                    (Mock.st0 Mock.only_no_results 0%nat)) =
    Raise (Exn ElectronBondReturnError "get_paged doesn't know how to handle {'count': 0}").
Proof.
  destruct (@bad_page_raises_ReturnError Mock.only_no_results Mock.self
              (get_paged "objects/" [] []) (Mock.st0 Mock.only_no_results 0%nat)
              (snd (@get Mock.only_no_results Mock.self "objects/" []
                         [("params"%string, PDict [("page"%string, PInt 1)])]
                         (Mock.st0 Mock.only_no_results 0%nat)))
              Mock.no_results) as [Hrun _].
  - apply (@reads_first Mock.only_no_results Mock.self "objects/" [] []
             ([("page"%string, PInt 1)], []) (mkResponse 200 "no_results")); reflexivity.
  - reflexivity.
  - rewrite Hrun. reflexivity.
Defined.

(** After a successful [authorize], a [post] and the whole of a paged run
    leave [Authorization: Bearer abc] in place; all three requests carry
    it. *)
Lemma authorization_header_persists_witness :
  Forall (fun r => req_headers r !! "Authorization" = Some "Bearer abc"%string)
         (sent_since
            (snd (@authorize Mock.api Mock.self (Mock.st0 Mock.api 0%nat)))
            (@run_ops Mock.api isinstance_Exception Mock.self
               [OpVerb "post" "objects/" [] [];
                OpNext (get_paged "objects/" [] []);
                OpNext (GenSuspended "objects/" [("page"%string, PInt 1)] Mock.page1 [])]
               (snd (@authorize Mock.api Mock.self (Mock.st0 Mock.api 0%nat))))) /\
  length (sent_since
            (snd (@authorize Mock.api Mock.self (Mock.st0 Mock.api 0%nat)))
            (@run_ops Mock.api isinstance_Exception Mock.self
               [OpVerb "post" "objects/" [] [];
                OpNext (get_paged "objects/" [] []);
                OpNext (GenSuspended "objects/" [("page"%string, PInt 1)] Mock.page1 [])]
               (snd (@authorize Mock.api Mock.self (Mock.st0 Mock.api 0%nat))))) = 3%nat.
Proof.
  split; [| vm_compute; reflexivity].
  apply (@authorization_header_persists Mock.api isinstance_Exception Mock.self
           [OpVerb "post" "objects/" [] [];
            OpNext (get_paged "objects/" [] []);
            OpNext (GenSuspended "objects/" [("page"%string, PInt 1)] Mock.page1 [])]
           (snd (@authorize Mock.api Mock.self (Mock.st0 Mock.api 0%nat)))
           "Bearer abc").
  vm_compute. reflexivity.
Defined.

(** client/web_client.py installs no [patch]. *)
Example web_client_has_no_patch :
  @proxy_method Mock.api web_client_proxy_verbs "patch" = None /\
  exists f, @proxy_method Mock.api proxy_verbs "patch" = Some f.
Proof. split; [reflexivity | eexists; reflexivity]. Qed.

(** Trailing slashes of [baseurl] and leading slashes of the path all go. *)
Example strips_every_slash :
  rstrip "/" "http://api.example//" = "http://api.example"%string /\
  lstrip "/" "//objects/7/" = "objects/7/"%string.
Proof. split; reflexivity. Qed.

(** * Further properties of the code *)

(** ** The proxy verbs *)

Lemma rstrip_all (chars s : string) :
  str_forallb (fun c => char_in c chars) s = true -> rstrip chars s = EmptyString.
Proof.
  induction s as [| c s IH]; simpl; [reflexivity |].
  intro H. apply andb_prop in H. destruct H as [Hc Hs].
  rewrite (IH Hs), Hc. reflexivity.
Qed.

Lemma rstrip_app_stripped (chars s suf : string) :
  str_forallb (fun c => char_in c chars) suf = true ->
  rstrip chars (s +:+ suf) = rstrip chars s.
Proof.
  intro H. induction s as [| c s IH].
  - change (EmptyString +:+ suf) with suf. rewrite (rstrip_all chars suf H). reflexivity.
  - change (String c s +:+ suf) with (String c (s +:+ suf)).
    simpl. rewrite IH. reflexivity.
Qed.

Lemma lstrip_app_stripped (chars pre s : string) :
  str_forallb (fun c => char_in c chars) pre = true ->
  lstrip chars (pre +:+ s) = lstrip chars s.
Proof.
  induction pre as [| c pre IH]; intro H.
  - reflexivity.
  - change (String c pre +:+ s) with (String c (pre +:+ s)).
    simpl in *. apply andb_prop in H. destruct H as [Hc Hp].
    rewrite Hc. apply IH. exact Hp.
Qed.

Section Verbs.
Context `{L : Libs}.

(** X1: when [urlparse] rejects the URL, or [baseurl] is not configured, a
    proxy verb raises (the parse error first, else [KeyError('baseurl')]),
    hands nothing to the session and leaves the state as it was. *)
Theorem proxy_verb_without_target :
  forall (verb : string) (self : ElectronBond) (url : string) (args : list pyval)
         (kwargs : list (string * pyval)) (st : State),
    target_url self url = None ->
    http_meth_factory verb self url args kwargs st =
      (Raise match urlparse url with
             | Raise e => e
             | Ok _ => KeyError_of "baseurl"
             end, st).
Proof.
  intros verb self url args kwargs st.
  unfold target_url, http_meth_factory, bind, lift, config_getitem.
  destruct (urlparse url) as [p | e]; [| reflexivity].
  destruct (config self !! "baseurl"); [discriminate | reflexivity].
Qed.

(** X2: the URL a proxy verb sends has exactly one slash where [baseurl]
    and the path meet: what stands before it is [baseurl] less a run of
    slashes and does not end in a slash, what stands after it is the path
    less a run of slashes and does not begin with one. *)
Theorem proxy_verb_joins_with_one_slash :
  forall (verb : string) (self : ElectronBond) (url : string) (args : list pyval)
         (kwargs : list (string * pyval)) (st : State) (b : string) (p : ParseResult),
    config self !! "baseurl" = Some b ->
    urlparse url = Ok p ->
    exists base rest cut_b cut_p,
      sent_since st (snd (http_meth_factory verb self url args kwargs st)) =
        [mkRequest verb (base +:+ "/" +:+ rest) args kwargs (st_headers st)] /\
      b = base +:+ cut_b /\ path p = cut_p +:+ rest /\
      str_forallb Fixtures.is_slash cut_b = true /\
      str_forallb Fixtures.is_slash cut_p = true /\
      last_char base <> Some Fixtures.slash /\
      first_char rest <> Some Fixtures.slash.
Proof.
  intros verb self url args kwargs st b p Hb Hp.
  destruct (rstrip_spec "/" b) as [cut_b [Hbs [Hball Hblast]]].
  destruct (lstrip_spec "/" (path p)) as [cut_p [Hps [Hpall Hpfirst]]].
  exists (rstrip "/" b), (lstrip "/" (path p)), cut_b, cut_p.
  split; [| split; [exact Hbs | split; [exact Hps | split; [exact Hball | split; [exact Hpall |]]]]].
  - rewrite (http_meth_factory_eq verb self url args kwargs st b p Hb Hp).
    cbn [snd]. apply sent_since_app.
  - split.
    + destruct (last_char (rstrip "/" b)) as [c |]; [| discriminate].
      intro H; inversion H; subst. discriminate Hblast.
    + destruct (first_char (lstrip "/" (path p))) as [c |]; [| discriminate].
      intro H; inversion H; subst. discriminate Hpfirst.
Qed.

(** X3: slashes added at the end of [baseurl], or at the front of the
    path component that [urlparse] returns, change nothing: the call has
    the same result and the same effect.  (The path component is meant: a
    URL argument that itself begins with two slashes names a host.) *)
Theorem proxy_verb_ignores_extra_slashes :
  forall (verb : string) (self1 self2 : ElectronBond) (url1 url2 : string)
         (args : list pyval) (kwargs : list (string * pyval)) (st : State)
         (b more_b more_p : string) (p1 p2 : ParseResult),
    config self1 !! "baseurl" = Some b ->
    config self2 !! "baseurl" = Some (b +:+ more_b) ->
    urlparse url1 = Ok p1 ->
    urlparse url2 = Ok p2 ->
    path p2 = more_p +:+ path p1 ->
    str_forallb Fixtures.is_slash more_b = true ->
    str_forallb Fixtures.is_slash more_p = true ->
    http_meth_factory verb self2 url2 args kwargs st =
      http_meth_factory verb self1 url1 args kwargs st.
Proof.
  intros verb self1 self2 url1 url2 args kwargs st b more_b more_p p1 p2
         Hb1 Hb2 Hp1 Hp2 Hpath Hmb Hmp.
  rewrite (http_meth_factory_eq verb self2 url2 args kwargs st _ p2 Hb2 Hp2).
  rewrite (http_meth_factory_eq verb self1 url1 args kwargs st _ p1 Hb1 Hp1).
  cbv zeta. rewrite Hpath.
  rewrite (rstrip_app_stripped "/" b more_b Hmb).
  rewrite (lstrip_app_stripped "/" more_p (path p1) Hmp). reflexivity.
Qed.

(** X4: the two source files install the same method for every verb they
    share, and differ in [patch] alone: client/web_client.py has a method
    for a name exactly when client.py has one and the name is not
    [patch]. *)
Theorem web_client_verbs_are_client_verbs_less_patch :
  forall (name : string)
         (f : ElectronBond -> string -> list pyval -> list (string * pyval) -> M Response),
    proxy_method web_client_proxy_verbs name = Some f <->
    (proxy_method proxy_verbs name = Some f /\ name <> "patch"%string).
Proof.
  intros name f. unfold proxy_method, web_client_proxy_verbs, proxy_verbs.
  cbn [existsb].
  destruct (String.eqb_spec name "patch") as [-> | Hne].
  - cbn. split; [discriminate | intros [_ H]; congruence].
  - rewrite orb_false_l. split.
    + intro H. split; [exact H | exact Hne].
    + intros [H _]. exact H.
Qed.
End Verbs.

(** ** The default headers *)

Section Headers.
Context `{L : Libs}.

Lemma keeps_refl (k : string) (st : State) : keeps k st st.
Proof. split; [reflexivity | exists []; split; [symmetry; apply app_nil_r | constructor]]. Qed.

Lemma keeps_trans (k : string) (st1 st2 st3 : State) :
  keeps k st1 st2 -> keeps k st2 st3 -> keeps k st1 st3.
Proof.
  intros [H12 [n12 [S12 F12]]] [H23 [n23 [S23 F23]]]. split.
  - congruence.
  - exists (n12 ++ n23). split.
    + rewrite S23, S12. symmetry; apply app_assoc.
    + apply Forall_app. split; [exact F12 |].
      rewrite H12 in F23. exact F23.
Qed.

Lemma frames_keeps (k : string) (st st' : State) : frames st st' -> keeps k st st'.
Proof.
  intros [Hh [new [Hs Hf]]]. split; [rewrite Hh; reflexivity |].
  exists new. split; [exact Hs |].
  eapply Forall_impl; [exact Hf |]. intros r Hr; simpl in Hr. rewrite Hr. reflexivity.
Qed.

Lemma keeping_bind {A B} (k : string) (m : M A) (f : A -> M B) :
  keeping k m -> (forall a, keeping k (f a)) -> keeping k (bind m f).
Proof.
  intros Hm Hf st. unfold bind. specialize (Hm st).
  destruct (m st) as [[a | e] st']; simpl in *.
  - eapply keeps_trans; [exact Hm | apply Hf].
  - exact Hm.
Qed.

Lemma keeping_framing {A} (k : string) (m : M A) : framing m -> keeping k m.
Proof. intros H st. apply frames_keeps. apply H. Qed.

Lemma keeping_set_header (k k' v : string) : k' <> k -> keeping k (set_header k' v).
Proof.
  intros Hne st. unfold set_header. simpl. split.
  - simpl. apply lookup_insert_ne. exact Hne.
  - exists []. split; [symmetry; apply app_nil_r | constructor].
Qed.

Lemma keeping_authorize (k : string) (self : ElectronBond) :
  k <> "Authorization"%string -> keeping k (authorize self).
Proof.
  intro Hne. unfold authorize.
  do 3 (apply keeping_bind; [apply keeping_framing, framing_lift | intro]).
  apply keeping_bind; [apply keeping_framing, framing_session_meth | intro resp].
  destruct (negb _); [apply keeping_framing, framing_raise |].
  do 2 (apply keeping_bind; [apply keeping_framing, framing_lift | intro]).
  apply keeping_bind; [apply keeping_set_header; congruence | intro].
  apply keeping_framing, framing_ret.
Qed.

Lemma keeping_authorize_oauth (k : string) (self : ElectronBond) :
  k <> "Authorization"%string -> keeping k (authorize_oauth self).
Proof.
  intro Hne. unfold authorize_oauth.
  apply keeping_bind.
  { apply keeping_framing, framing_try_except;
      [apply framing_authorize_oauth_try | intro; apply framing_raise]. }
  intro token.
  apply keeping_bind; [apply keeping_framing, framing_lift | intro].
  apply keeping_bind; [apply keeping_set_header; congruence | intro].
  apply keeping_bind; [apply keeping_framing, framing_lift | intro].
  apply keeping_framing, framing_ret.
Qed.

Lemma keeps_run_session_ops (catches : exn -> bool) (k : string) (self : ElectronBond)
      (ops : list session_op) :
  k <> "Authorization"%string ->
  forall st, keeps k st (run_session_ops catches self ops st).
Proof.
  intro Hne. induction ops as [| op ops IH]; intro st; simpl.
  - apply keeps_refl.
  - eapply keeps_trans; [| apply IH].
    destruct op as [| | o]; simpl.
    + apply keeping_authorize; exact Hne.
    + apply keeping_authorize_oauth; exact Hne.
    + apply frames_keeps, frames_run_op.
Qed.

Lemma keeps_carry (k : string) (st st' : State) :
  keeps k st st' ->
  st_headers st' !! k = st_headers st !! k /\
  Forall (fun r => req_headers r !! k = st_headers st !! k) (sent_since st st').
Proof.
  intros [Hh [new [Hs Hf]]]. split; [exact Hh |].
  unfold sent_since. rewrite Hs, drop_app_length. exact Hf.
Qed.

(** X5: [Authorization] is the only default header the client ever
    writes after construction.  Over any sequence of operations, the two
    authenticators included, every header whose name is not
    [Authorization] in some spelling of upper and lower case (the
    session's mapping ignores case) keeps its value, or its absence, and
    every request is made under it. *)
Theorem only_Authorization_is_written :
  forall (catches : exn -> bool) (self : ElectronBond) (ops : list session_op)
         (st : State) (k : string),
    str_lower k <> "authorization"%string ->
    st_headers (run_session_ops catches self ops st) !! k = st_headers st !! k /\
    Forall (fun r => req_headers r !! k = st_headers st !! k)
           (sent_since st (run_session_ops catches self ops st)).
Proof.
  intros catches self ops st k Hne.
  apply keeps_carry. apply keeps_run_session_ops.
  intro Hk. apply Hne. rewrite Hk. reflexivity.
Qed.

(** X6: a client made by [__init__] on any session, whatever its headers
    were, makes every later request, of whatever operation, under
    [Accept: application/json] and [User-Agent: ElectronBond/0.1]; the
    constructor itself sends nothing and keeps every header of the session
    whose name is neither [Accept] nor [User-Agent] in any spelling of
    upper and lower case. *)
Theorem requests_after_init_carry_Accept :
  forall (catches : exn -> bool) (cfg : gmap string string) (ops : list session_op)
         (st : State),
    fst (ElectronBond_init cfg st) = Ok (mkElectronBond cfg) /\
    st_sent (snd (ElectronBond_init cfg st)) = st_sent st /\
    (forall k, str_lower k <> "accept"%string -> str_lower k <> "user-agent"%string ->
               st_headers (snd (ElectronBond_init cfg st)) !! k = st_headers st !! k) /\
    Forall (fun r => req_headers r !! "Accept" = Some "application/json"%string /\
                     req_headers r !! "User-Agent" = Some "ElectronBond/0.1"%string)
           (sent_since (snd (ElectronBond_init cfg st))
                       (run_session_ops catches (mkElectronBond cfg) ops
                                        (snd (ElectronBond_init cfg st)))).
Proof.
  intros catches cfg ops st.
  unfold ElectronBond_init, bind, set_header, ret. cbn [fst snd st_sent st_headers].
  split; [reflexivity | split; [reflexivity | split]].
  - intros k Ha Hu.
    assert (Ha' : "Accept"%string <> k) by (intro H; apply Ha; rewrite <- H; reflexivity).
    assert (Hu' : "User-Agent"%string <> k) by (intro H; apply Hu; rewrite <- H; reflexivity).
    rewrite lookup_insert_ne by exact Hu'.
    apply lookup_insert_ne. exact Ha'.
  - set (st1 := mkState _ _ _).
    pose proof (keeps_run_session_ops catches "Accept" (mkElectronBond cfg) ops
                  ltac:(discriminate) st1) as Ha.
    pose proof (keeps_run_session_ops catches "User-Agent" (mkElectronBond cfg) ops
                  ltac:(discriminate) st1) as Hu.
    apply keeps_carry in Ha, Hu. destruct Ha as [_ Ha]. destruct Hu as [_ Hu].
    apply Forall_forall. intros r Hr.
    rewrite Forall_forall in Ha, Hu. split.
    + rewrite (Ha r Hr). subst st1. cbn [st_headers].
      rewrite lookup_insert_ne by discriminate. apply lookup_insert_eq.
    + rewrite (Hu r Hr). subst st1. cbn [st_headers]. apply lookup_insert_eq.
Qed.
End Headers.

(** ** [authorize] *)

Section Authorize.
Context `{L : Libs}.

(** X7: [authorize] writes the header exactly when it returns.  If it
    returns [v], the default headers are the old ones with [Authorization]
    set to [Bearer] and [str(v)]; if it raises, whatever the reason, they
    are the old ones.  Either way it makes at most one call on the session,
    a [post]. *)
Theorem authorize_writes_header_iff_it_returns :
  forall (self : ElectronBond) (st : State),
    match fst (authorize self st) with
    | Ok v => st_headers (snd (authorize self st)) =
                <["Authorization" := "Bearer " +:+ py_str v]> (st_headers st)
    | Raise _ => st_headers (snd (authorize self st)) = st_headers st
    end /\
    (length (sent_since st (snd (authorize self st))) <= 1)%nat /\
    Forall (fun r => req_meth r = "post"%string) (sent_since st (snd (authorize self st))).
Proof.
  intros self st. unfold authorize, bind, lift, raise, ret, set_header, config_getitem.
  destruct (config self !! "baseurl") as [b |];
    [| cbn [fst snd]; rewrite sent_since_same; split; [reflexivity | split; [cbn; lia | constructor]]].
  destruct (config self !! "password") as [pw |];
    [| cbn [fst snd]; rewrite sent_since_same; split; [reflexivity | split; [cbn; lia | constructor]]].
  destruct (config self !! "username") as [u |];
    [| cbn [fst snd]; rewrite sent_since_same; split; [reflexivity | split; [cbn; lia | constructor]]].
  rewrite session_meth_eq.
  assert (Hone : forall (h : gmap string string) (w : World) (r : Request),
             req_meth r = "post"%string ->
             (length (sent_since st (mkState h w (st_sent st ++ [r]))) <= 1)%nat /\
             Forall (fun r => req_meth r = "post"%string)
                    (sent_since st (mkState h w (st_sent st ++ [r])))).
  { intros h w r Hr. rewrite sent_since_app. split; [cbn; lia | repeat constructor; exact Hr]. }
  destruct (session_send _ _) as [[resp | e] w']; cbn [fst snd].
  - destruct (negb _); cbn [fst snd st_headers].
    + split; [reflexivity | apply Hone; reflexivity].
    + destruct (json_loads (text resp)) as [body | e]; cbn [fst snd st_headers].
      * destruct (py_getitem body "token") as [v | e]; cbn [fst snd st_headers st_sent];
          (split; [reflexivity | apply Hone; reflexivity]).
      * split; [reflexivity | apply Hone; reflexivity].
  - split; [reflexivity | apply Hone; reflexivity].
Qed.

(** X8: without [baseurl], [password] or [username] in the configuration,
    [authorize] raises the [KeyError] of the first of them that is
    missing, in that order, before anything is sent; the state is
    untouched. *)
Theorem authorize_missing_configuration :
  forall (self : ElectronBond) (st : State) (k : string),
    find (fun k => match config self !! k with None => true | Some _ => false end)
         ["baseurl"; "password"; "username"]%string = Some k ->
    authorize self st = (Raise (KeyError_of k), st).
Proof.
  intros self st k. unfold authorize, bind, lift, config_getitem. cbn [find].
  destruct (config self !! "baseurl"); [| intro H; inversion H; reflexivity].
  destruct (config self !! "password"); [| intro H; inversion H; reflexivity].
  destruct (config self !! "username"); [discriminate | intro H; inversion H; reflexivity].
Qed.

(** X9: a 200 or 201 whose body does not parse, or parses to something
    without a [token] key, makes [authorize] raise that very error (the
    decode error, the [KeyError], the [TypeError]) and not an
    [ElectronBondAuthError]; the header is not written. *)
Theorem authorize_malformed_body_is_not_AuthError :
  forall (self : ElectronBond) (st : State) (b u pw : string)
         (resp : Response) (w' : World) (e : exn),
    config self !! "baseurl" = Some b ->
    config self !! "password" = Some pw ->
    config self !! "username" = Some u ->
    let req := mkRequest "post" (rstrip "/" b +:+ "/get-token/") []
                 [("data"%string, PDict [("password"%string, PStr pw);
                                         ("username"%string, PStr u)])]
                 (st_headers st) in
    session_send (st_world st) req = (Ok resp, w') ->
    status_code resp = 200 \/ status_code resp = 201 ->
    match json_loads (text resp) with
    | Ok body => py_getitem body "token"
    | Raise e' => Raise e'
    end = Raise e ->
    authorize self st = (Raise e, mkState (st_headers st) w' (st_sent st ++ [req])).
Proof.
  intros self st b u pw resp w' e Hb Hpw Hu req Hsend Hstatus Hbad.
  unfold authorize, bind, lift, config_getitem. rewrite Hb, Hpw, Hu.
  change (str_join "/" [rstrip "/" b; "get-token/"%string])
    with (rstrip "/" b +:+ "/get-token/").
  rewrite session_meth_eq. fold req. rewrite Hsend. cbn [fst snd].
  assert (Hin : existsb (Z.eqb (status_code resp)) [200; 201] = true).
  { destruct Hstatus as [-> | ->]; reflexivity. }
  rewrite Hin. cbn [negb].
  destruct (json_loads (text resp)) as [body | e'].
  - rewrite Hbad. reflexivity.
  - inversion Hbad. reflexivity.
Qed.

(** X10: an exception of the transport during the token request leaves
    [authorize] as it is, and the header is not written. *)
Theorem authorize_transport_error_propagates :
  forall (self : ElectronBond) (st : State) (b u pw : string) (e : exn) (w' : World),
    config self !! "baseurl" = Some b ->
    config self !! "password" = Some pw ->
    config self !! "username" = Some u ->
    let req := mkRequest "post" (rstrip "/" b +:+ "/get-token/") []
                 [("data"%string, PDict [("password"%string, PStr pw);
                                         ("username"%string, PStr u)])]
                 (st_headers st) in
    session_send (st_world st) req = (Raise e, w') ->
    authorize self st = (Raise e, mkState (st_headers st) w' (st_sent st ++ [req])).
Proof.
  intros self st b u pw e w' Hb Hpw Hu req Hsend.
  unfold authorize, bind, lift, config_getitem. rewrite Hb, Hpw, Hu.
  change (str_join "/" [rstrip "/" b; "get-token/"%string])
    with (rstrip "/" b +:+ "/get-token/").
  rewrite session_meth_eq. fold req. rewrite Hsend. reflexivity.
Qed.
End Authorize.

(** ** [authorize_oauth] *)

Section OAuthMore.
Context `{L : Libs}.

Lemma authorize_oauth_try_sent (self : ElectronBond) (st : State) :
  st_sent (snd (authorize_oauth_try self st)) = st_sent st.
Proof.
  unfold authorize_oauth_try, bind, lift, ret, oauth_fetch_token, config_getitem.
  destruct (config self !! "oauth_client_id") as [cid |]; [| reflexivity].
  destruct (BackendApplicationClient cid) as [c | e]; [| reflexivity].
  destruct (OAuth2Session c) as [o | e]; [| reflexivity].
  destruct (config self !! "oauth_client_baseurl") as [base |]; [| reflexivity].
  destruct (config self !! "oauth_client_secret") as [secret |]; [| reflexivity].
  destruct (fetch_token o _ cid secret (st_world st)) as [[token | e] w']; reflexivity.
Qed.

(** X11: the OAuth flow never calls the client's session: whatever
    happens, nothing is added to the calls made on it.  The token is
    fetched on a session of its own, without the retry adapters and the
    default headers of the client's. *)
Theorem authorize_oauth_makes_no_session_call :
  forall (self : ElectronBond) (st : State),
    st_sent (snd (authorize_oauth self st)) = st_sent st.
Proof.
  intros self st. pose proof (authorize_oauth_try_sent self st) as Htry.
  unfold authorize_oauth, bind, try_except, lift, raise, ret, set_header, dict_getitem.
  destruct (authorize_oauth_try self st) as [[token | e] st1]; cbn [snd] in Htry.
  - destruct (dict_get "access_token" token); cbn; exact Htry.
  - destruct (isinstance_Exception e); cbn; exact Htry.
Qed.

(** X12: [authorize_oauth] writes the header exactly when it returns: on
    [Ok v] the default headers are the old ones with [Authorization] set to
    [Bearer] and [str(v)], on any exception they are the old ones. *)
Theorem authorize_oauth_writes_header_iff_it_returns :
  forall (self : ElectronBond) (st : State),
    match fst (authorize_oauth self st) with
    | Ok v => st_headers (snd (authorize_oauth self st)) =
                <["Authorization" := "Bearer " +:+ py_str v]> (st_headers st)
    | Raise _ => st_headers (snd (authorize_oauth self st)) = st_headers st
    end.
Proof.
  intros self st. pose proof (framing_authorize_oauth_try self st) as [Hh _].
  unfold authorize_oauth, bind, try_except, lift, raise, ret, set_header, dict_getitem.
  destruct (authorize_oauth_try self st) as [[token | e] st1]; cbn [snd] in Hh.
  - destruct (dict_get "access_token" token); cbn; rewrite Hh; reflexivity.
  - destruct (isinstance_Exception e); cbn; exact Hh.
Qed.

(** X13: what [authorize_oauth] can raise.  Any exception that leaves it
    is an [ElectronBondAuthError] with the fixed prefix, or the
    [KeyError] of a token without [access_token], or is not an instance of
    [Exception]; no other [Exception] of the libraries gets out. *)
Theorem authorize_oauth_error_kinds :
  forall (self : ElectronBond) (st : State) (e : exn),
    fst (authorize_oauth self st) = Raise e ->
    (exists e0, e = Exn ElectronBondAuthError
                        ("Failed to authorize OAuth with message: " +:+ exn_str e0)) \/
    e = KeyError_of "access_token" \/
    isinstance_Exception e = false.
Proof.
  intros self st e.
  unfold authorize_oauth, bind, try_except, lift, raise, ret, set_header, dict_getitem.
  destruct (authorize_oauth_try self st) as [[token | e1] st1].
  - destruct (dict_get "access_token" token); cbn; [discriminate |].
    intro H; inversion H. right; left; reflexivity.
  - destruct (isinstance_Exception e1) eqn:He1; cbn; intro H; inversion H; subst.
    + left. exists e1. reflexivity.
    + right; right. exact He1.
Qed.

(** X14: a missing OAuth key of the configuration is looked up inside the
    [try]: unlike [authorize], which raises the bare [KeyError],
    [authorize_oauth] raises [ElectronBondAuthError] whose message is the
    quoted name of the first missing key (client id, base URL, secret, in
    that order), the client and session being built in between; nothing is
    fetched and the state is untouched. *)
Theorem authorize_oauth_missing_configuration :
  forall (self : ElectronBond) (st : State) (k : string),
    find (fun k => match config self !! k with None => true | Some _ => false end)
         ["oauth_client_id"; "oauth_client_baseurl"; "oauth_client_secret"]%string = Some k ->
    (forall cid, config self !! "oauth_client_id" = Some cid ->
                 exists c o, BackendApplicationClient cid = Ok c /\ OAuth2Session c = Ok o) ->
    authorize_oauth self st =
      (Raise (Exn ElectronBondAuthError
                  ("Failed to authorize OAuth with message: " +:+ "'" +:+ k +:+ "'")), st).
Proof.
  intros self st k Hfind Hbuild.
  unfold authorize_oauth, authorize_oauth_try, bind, try_except, lift, raise,
    config_getitem. cbn [find] in Hfind.
  destruct (config self !! "oauth_client_id") as [cid |];
    [| inversion Hfind; reflexivity].
  destruct (Hbuild cid eq_refl) as [c [o [-> ->]]].
  destruct (config self !! "oauth_client_baseurl");
    [| inversion Hfind; reflexivity].
  destruct (config self !! "oauth_client_secret");
    [discriminate | inversion Hfind; reflexivity].
Qed.

(** X15: the OAuth flow when it succeeds: the client is built for the
    configured id, the token is fetched from [oauth_client_baseurl] followed
    by [/oauth2/token] with id and secret, and its [access_token] is
    returned and becomes the bearer of the default [Authorization]
    header. *)
Theorem authorize_oauth_returns_access_token :
  forall (self : ElectronBond) (st : State) (cid base secret : string)
         (c : oauth_client) (o : oauth_session) (token : list (string * pyval))
         (w' : World) (v : pyval),
    config self !! "oauth_client_id" = Some cid ->
    config self !! "oauth_client_baseurl" = Some base ->
    config self !! "oauth_client_secret" = Some secret ->
    BackendApplicationClient cid = Ok c ->
    OAuth2Session c = Ok o ->
    fetch_token o (base +:+ "/oauth2/token") cid secret (st_world st) = (Ok token, w') ->
    dict_get "access_token" token = Some v ->
    authorize_oauth self st =
      (Ok v, mkState (<["Authorization" := "Bearer " +:+ py_str v]> (st_headers st))
                     w' (st_sent st)).
Proof.
  intros self st cid base secret c o token w' v Hcid Hbase Hsecret Hc Ho Hfetch Hv.
  unfold authorize_oauth, authorize_oauth_try, bind, try_except, lift, ret,
    oauth_fetch_token, set_header, dict_getitem, config_getitem.
  rewrite Hcid, Hc, Ho, Hbase, Hsecret, Hfetch. cbn [isinstance_Exception].
  rewrite Hv. reflexivity.
Qed.
End OAuthMore.

(** ** [get_paged]: one step *)

Section Steps.
Context `{L : Libs}.
Variable catches : exn -> bool.

(** X16: the generator is lazy.  A [next] makes at most one call on the
    session, and none at all while items of the page already fetched are
    waiting, or once the generator is finished. *)
Theorem next_fetches_at_most_once :
  forall (self : ElectronBond) (g : generator) (st : State),
    (length (sent_since st (snd (generator_next catches self g st))) <=
     match g with
     | GenSuspended _ _ _ (_ :: _) => 0
     | GenFinished => 0
     | _ => 1
     end)%nat.
Proof.
  intros self g st.
  destruct g as [url args kwargs | url params cj [| obj pending] |]; cbn [generator_next].
  - unfold bind at 1. unfold lift at 1.
    destruct (initial_params kwargs) as [pk | e];
      [| cbn [snd]; rewrite sent_since_same; cbn; lia].
    unfold bind at 1.
    destruct (get_sends self url [] (("params"%string, PDict (fst pk)) :: snd pk) st)
      as [[Hst [e He]] | [req [_ [_ [_ Hs]]]]].
    + destruct (get self url [] _ st) as [r st1]. cbn [fst snd] in *. subst.
      cbn [snd]. rewrite sent_since_same. cbn; lia.
    + assert (Hone : (length (sent_since st (snd (get self url []
                        (("params"%string, PDict (fst pk)) :: snd pk) st))) <= 1)%nat).
      { unfold sent_since. rewrite Hs, drop_app_length. cbn; lia. }
      destruct (get self url [] _ st) as [[resp | e] st1]; cbn [snd] in *; [| exact Hone].
      unfold bind, lift. destruct (Response_json resp) as [j | e]; [| exact Hone].
      pose proof (while_head_cases catches url (fst pk) j st1) as [Hw _].
      destruct (while_head catches url (fst pk) j st1) as [r st2].
      cbn [snd] in *. subst. exact Hone.
  - destruct (after_for_sends catches self url params cj st)
      as [[Hst _] | [_ [_ [req [_ [_ [_ [_ [_ [Hs _]]]]]]]]]].
    + rewrite Hst, sent_since_same. cbn; lia.
    + unfold sent_since. rewrite Hs, drop_app_length. cbn; lia.
  - cbn [ret snd]. rewrite sent_since_same. cbn; lia.
  - cbn [ret snd]. rewrite sent_since_same. cbn; lia.
Qed.

(** X17: the items of a page already fetched are handed out as they are
    and in order, one per [next], without a call on the session and
    without a change of state, whatever the fetch of the following page
    will do. *)
Theorem buffered_items_are_handed_out :
  forall (self : ElectronBond) (url : string) (params : list (string * pyval))
         (current_json : pyval) (pending : list pyval) (st : State),
    consume catches (length pending) self
            (GenSuspended url params current_json pending) st =
      ((pending, Unfinished (GenSuspended url params current_json [])), st).
Proof.
  intros self url params cj pending st.
  replace (length pending) with (length pending + 0)%nat by lia.
  rewrite consume_pending. cbn [consume fst snd]. rewrite app_nil_r. reflexivity.
Qed.


(** X19: a [params] keyword argument that is not a mapping stops the
    first [next] with a [TypeError], before anything is sent. *)
Theorem params_must_be_a_mapping :
  forall (self : ElectronBond) (url : string) (args : list pyval)
         (kwargs : list (string * pyval)) (v : pyval) (st : State),
    dict_get "params" kwargs = Some v ->
    (forall given, v <> PDict given) ->
    exists e,
      generator_next catches self (get_paged url args kwargs) st = (Raise e, st) /\
      exn_cls e = TypeError.
Proof.
  intros self url args kwargs v st Hget Hnot.
  unfold get_paged, generator_next, bind, lift, initial_params, dict_contains.
  rewrite Hget. destruct v; try (eexists; split; reflexivity).
  exfalso. exact (Hnot kvs eq_refl).
Qed.

(** X20: a page the paginator can read is never rejected.  When a [next]
    reads a page whose [results] can be measured and iterated (an array,
    but also a string or an object), it yields the first item and keeps the
    others, or ends the generator when there is none; with C6, an
    [ElectronBondReturnError] at the reading of a page means exactly that
    its shape is wrong. *)
Theorem readable_page_is_not_rejected :
  forall (self : ElectronBond) (g : generator) (st st1 : State) (j : pyval),
    reads_page self g st j st1 ->
    page_shape_ok j = true ->
    exists url params results items,
      generator_url g = Some url /\
      py_getitem j "results" = Ok results /\ py_items results = Ok items /\
      generator_next catches self g st =
        (Ok match items with
            | [] => None
            | obj :: rest => Some (obj, GenSuspended url params j rest)
            end, st1).
Proof.
  intros self g st st1 j Hread Hok.
  assert (Hurl : exists url, generator_url g = Some url /\
                 exists params, generator_next catches self g st =
                                while_head catches url params j st1).
  { destruct Hread as [url args kwargs pk resp st0 st1' j' Hinit Hget Hjson
                      | url params cj nx page page' resp st0 st1' j' Hnx Htruthy Hpage Hadd
                            Hget Hjson].
    - exists url. split; [reflexivity |]. exists (fst pk).
      unfold generator_next, bind, lift. rewrite Hinit, Hget, Hjson. reflexivity.
    - exists url. split; [reflexivity |]. exists (dict_set "page" page' params).
      unfold generator_next, after_for, in_try, try_except, bind, lift, dict_getitem.
      rewrite Hnx, Htruthy. cbn [negb]. rewrite Hpage, Hadd, Hget, Hjson. reflexivity. }
  destruct Hurl as [url [Hg [params Hnext]]].
  unfold page_shape_ok in Hok.
  destruct (py_getitem j "results") as [results |] eqn:Hres; [| discriminate].
  destruct (py_items results) as [items |] eqn:Hitems; [| discriminate].
  exists url, params, results, items.
  split; [exact Hg | split; [first [reflexivity | exact Hres] |
                             split; [first [reflexivity | exact Hitems] |]]].
  rewrite Hnext. unfold while_head, in_try, try_except, bind, lift, ret.
  rewrite Hres, Hitems. destruct items; reflexivity.
Qed.
End Steps.

Section PageTurn.
Context `{L : Libs}.

(** X21: a [page] that cannot take [+= 1] (a string such as ["2"], a
    list, [None]) is accepted for the first fetch and fails at the turn of
    the page: the increment raises inside the [try], so the [next] after
    the last item of the page raises [ElectronBondReturnError] about the
    page just consumed, and nothing is sent.  Both source files. *)
Theorem page_that_cannot_be_incremented :
  forall (self : ElectronBond) (url : string) (params : list (string * pyval))
         (current_json next page : pyval) (e : exn) (st : State),
    py_get current_json "next" = Ok next ->
    truthy next = true ->
    dict_get "page" params = Some page ->
    py_iadd1 page = Raise e ->
    client_next self (GenSuspended url params current_json []) st =
      (Raise (ReturnError_for current_json), st) /\
    web_client_next self (GenSuspended url params current_json []) st =
      (Raise (ReturnError_for current_json), st).
Proof.
  intros self url params cj nx page e st Hnx Htruthy Hpage Hadd.
  assert (He : isinstance_Exception e = true).
  { destruct page; simpl in Hadd; inversion Hadd; reflexivity. }
  unfold client_next, web_client_next, generator_next, after_for, in_try, try_except,
    bind, lift, raise, dict_getitem.
  rewrite Hnx, Htruthy. cbn [negb]. rewrite Hpage, Hadd, He. split; reflexivity.
Qed.
End PageTurn.

(** ** [get_paged]: whole runs *)

Section Runs.
Context `{L : Libs}.
Variable catches : exn -> bool.

Lemma sends_only_ret {A} (P : Request -> Prop) (a : A) : sends_only P (ret a).
Proof. intro st. exists []. split; [symmetry; apply app_nil_r | constructor]. Qed.

Lemma sends_only_raise {A} (P : Request -> Prop) (e : exn) : sends_only P (@raise _ A e).
Proof. intro st. exists []. split; [symmetry; apply app_nil_r | constructor]. Qed.

Lemma sends_only_lift {A} (P : Request -> Prop) (r : result A) : sends_only P (lift r).
Proof. intro st. exists []. split; [symmetry; apply app_nil_r | constructor]. Qed.

Lemma sends_only_bind {A B} (P : Request -> Prop) (m : M A) (k : A -> M B) :
  sends_only P m -> (forall a, sends_only P (k a)) -> sends_only P (bind m k).
Proof.
  intros Hm Hk st. unfold bind. destruct (Hm st) as [n1 [S1 F1]].
  destruct (m st) as [[a | e] st1]; cbn [snd] in *.
  - destruct (Hk a st1) as [n2 [S2 F2]]. exists (n1 ++ n2). split.
    + rewrite S2, S1. symmetry; apply app_assoc.
    + apply Forall_app. split; assumption.
  - exists n1. split; assumption.
Qed.

Lemma sends_only_try_except {A} (P : Request -> Prop) (m : M A) (c : exn -> bool)
      (h : exn -> M A) :
  sends_only P m -> (forall e, sends_only P (h e)) -> sends_only P (try_except m c h).
Proof.
  intros Hm Hh st. unfold try_except. destruct (Hm st) as [n1 [S1 F1]].
  destruct (m st) as [[a | e] st1]; cbn [snd] in *.
  - exists n1. split; assumption.
  - destruct (c e); cbn [snd].
    + destruct (Hh e st1) as [n2 [S2 F2]]. exists (n1 ++ n2). split.
      * rewrite S2, S1. symmetry; apply app_assoc.
      * apply Forall_app. split; assumption.
    + exists n1. split; assumption.
Qed.

(** Every call a proxy verb makes is of its verb and goes to the target of
    its URL. *)
Lemma sends_only_http_meth_factory (meth : string) (self : ElectronBond) (url : string)
      (args : list pyval) (kwargs : list (string * pyval)) :
  sends_only (fun r => req_meth r = meth /\ Some (req_url r) = target_url self url)
             (http_meth_factory meth self url args kwargs).
Proof.
  intro st. unfold http_meth_factory, target_url, bind, lift, ret, config_getitem.
  destruct (urlparse url) as [p | e];
    [| exists []; split; [symmetry; apply app_nil_r | constructor]].
  destruct (config self !! "baseurl") as [b |];
    [| exists []; split; [symmetry; apply app_nil_r | constructor]].
  rewrite session_meth_eq. eexists.
  destruct (session_send _ _) as [[resp | e] w']; cbn [fst snd st_sent];
    (split; [reflexivity | repeat constructor]).
Qed.

Lemma sends_only_generator_next (self : ElectronBond) (url : string) (g : generator) :
  generator_url g = Some url ->
  sends_only (fun r => req_meth r = "get"%string /\ Some (req_url r) = target_url self url)
             (generator_next catches self g).
Proof.
  intro Hg.
  assert (Hwh : forall params j,
             sends_only (fun r => req_meth r = "get"%string /\
                                  Some (req_url r) = target_url self url)
                        (while_head catches url params j)).
  { intros params j. unfold while_head, in_try.
    apply sends_only_try_except; [| intro; apply sends_only_raise].
    apply sends_only_bind; [apply sends_only_lift | intro results].
    apply sends_only_bind; [apply sends_only_lift | intro items].
    destruct items; apply sends_only_ret. }
  destruct g as [url0 args kwargs | url0 params cj pending |]; [| | discriminate];
    inversion Hg; subst; cbn [generator_next].
  - apply sends_only_bind; [apply sends_only_lift | intro pk].
    apply sends_only_bind; [apply sends_only_http_meth_factory | intro page].
    apply sends_only_bind; [apply sends_only_lift | intro j]. apply Hwh.
  - destruct pending; [| apply sends_only_ret].
    unfold after_for, in_try. apply sends_only_bind.
    + apply sends_only_try_except; [| intro; apply sends_only_raise].
      apply sends_only_bind; [apply sends_only_lift | intro nx].
      destruct (negb (truthy nx)); [apply sends_only_ret |].
      apply sends_only_bind; [apply sends_only_lift | intro page].
      apply sends_only_bind; [apply sends_only_lift | intro page'].
      apply sends_only_bind; [apply sends_only_http_meth_factory | intro resp].
      apply sends_only_bind; [apply sends_only_lift | intro j]. apply sends_only_ret.
    + intros [[params' j'] |]; [apply Hwh | apply sends_only_ret].
Qed.

(** A generator that goes on is for the same URL. *)
Lemma generator_next_url (self : ElectronBond) (g g' : generator) (st : State)
      (obj : pyval) (url : string) :
  generator_url g = Some url ->
  fst (generator_next catches self g st) = Ok (Some (obj, g')) ->
  generator_url g' = Some url.
Proof.
  intros Hg.
  destruct g as [url0 args kwargs | url0 params cj pending |]; [| | discriminate];
    inversion Hg; subst; cbn [generator_next].
  - unfold bind, lift.
    destruct (initial_params kwargs) as [pk | e]; [| discriminate].
    destruct (get self url [] _ st) as [[resp | e] st1]; [| discriminate].
    destruct (Response_json resp) as [j | e]; [| discriminate].
    pose proof (while_head_cases catches url (fst pk) j st1) as [_ Hw].
    destruct (while_head catches url (fst pk) j st1) as [r st2]. cbn [fst] in *.
    intro H; subst r. destruct Hw as [rest ->]. reflexivity.
  - destruct pending as [| o pending].
    + destruct (after_for_sends catches self url params cj st)
        as [[_ Hr] | [_ [page' [_ [_ [_ [_ [_ [_ [_ Hr]]]]]]]]]];
        intro H; rewrite H in Hr; [contradiction |].
      destruct Hr as [j [rest ->]]. reflexivity.
    + cbn. intro H; inversion H. reflexivity.
Qed.

(** X22: the paginator asks the same address for every page.  All the
    calls of a run are [get]s to the one URL the proxy computes from
    [baseurl] and the path given to [get_paged]; the content of a page's
    [next] is never followed, only its truth value is read. *)
Theorem get_paged_refetches_the_same_url :
  forall (self : ElectronBond) (url : string) (args : list pyval)
         (kwargs : list (string * pyval)) (fuel : nat) (st : State),
    Forall (fun r => req_meth r = "get"%string /\ Some (req_url r) = target_url self url)
           (sent_since st (snd (consume catches fuel self (get_paged url args kwargs) st))).
Proof.
  intros self url args kwargs fuel st. unfold get_paged.
  assert (Hgen : generator_url (GenCreated url args kwargs) = Some url) by reflexivity.
  revert Hgen. generalize (GenCreated url args kwargs) as g. revert st.
  induction fuel as [| fuel IH]; intros st g Hg; cbn [consume].
  - cbn [snd]. rewrite sent_since_same. constructor.
  - destruct (sends_only_generator_next self url g Hg st) as [new [Hs Hf]].
    pose proof (fun g' obj => generator_next_url self g g' st obj url Hg) as Hurl.
    destruct (generator_next catches self g st) as [[[[obj g'] |] | e] st1];
      cbn [fst snd] in *.
    + specialize (IH st1 g' (Hurl g' obj eq_refl)).
      pose proof (frames_consume catches self fuel g' st1) as Hfr.
      destruct (consume catches fuel self g' st1) as [[items e] st2].
      cbn [snd] in *. rewrite (sent_since_step st st1 st2 new Hs Hfr).
      apply Forall_app. split; assumption.
    + unfold sent_since. rewrite Hs, drop_app_length. exact Hf.
    + unfold sent_since. rewrite Hs, drop_app_length. exact Hf.
Qed.

(** The fetches of a run: none when [params] is not acceptable, else the
    first one with the initial [params] and the caller's other keyword
    arguments, and the chain of the later ones. *)
Lemma run_fetches (self : ElectronBond) (url : string) (args : list pyval)
      (kwargs : list (string * pyval)) (fuel : nat) (st : State) :
  match initial_params kwargs with
  | Raise _ =>
      sent_since st (snd (consume catches fuel self (get_paged url args kwargs) st)) = []
  | Ok (params0, kwargs') =>
      match sent_since st (snd (consume catches fuel self (get_paged url args kwargs) st)) with
      | [] => True
      | first :: later =>
          req_kwargs first = ("params"%string, PDict params0) :: kwargs' /\
          later_fetches params0 later
      end
  end.
Proof.
  destruct fuel as [| fuel]; cbn [consume snd].
  { rewrite sent_since_same. destruct (initial_params kwargs) as [[? ?] | ?]; easy. }
  unfold get_paged. cbn [generator_next]. unfold bind at 1. unfold lift at 1.
  destruct (initial_params kwargs) as [[params0 kwargs'] | e];
    [| cbn [snd]; apply sent_since_same].
  cbn [fst snd]. unfold bind at 1.
  destruct (get_sends self url [] (("params"%string, PDict params0) :: kwargs') st)
    as [[Hst [e He]] | [req [_ [_ [Hk Hs]]]]].
  - destruct (get self url [] _ st) as [r st1]. cbn [fst snd] in *. subst.
    cbn [snd]. rewrite sent_since_same. exact I.
  - destruct (get self url [] _ st) as [[resp | e] st1]; cbn [snd] in Hs.
    + unfold bind, lift. destruct (Response_json resp) as [j | e].
      * pose proof (while_head_cases catches url params0 j st1) as [Hw1 Hw2].
        destruct (while_head catches url params0 j st1) as [r st2].
        cbn [fst snd] in *. subst st2.
        destruct r as [[[obj g'] |] | e].
        -- destruct Hw2 as [rest ->].
           pose proof (later_fetches_consume catches self fuel url params0 j rest st1) as Hl.
           pose proof (frames_consume catches self fuel (GenSuspended url params0 j rest) st1)
             as Hf.
           destruct (consume catches fuel self _ st1) as [[items e] st2].
           cbn [snd] in *. rewrite (sent_since_step st st1 st2 [req] Hs Hf).
           cbn [app]. split; assumption.
        -- cbn [snd]. rewrite (sent_since_step st st1 st1 [req] Hs (frames_refl st1)).
           rewrite sent_since_same. cbn [app]. split; [exact Hk | exact I].
        -- cbn [snd]. rewrite (sent_since_step st st1 st1 [req] Hs (frames_refl st1)).
           rewrite sent_since_same. cbn [app]. split; [exact Hk | exact I].
      * cbn [snd]. rewrite (sent_since_step st st1 st1 [req] Hs (frames_refl st1)).
        rewrite sent_since_same. cbn [app]. split; [exact Hk | exact I].
    + cbn [snd]. rewrite (sent_since_step st st1 st1 [req] Hs (frames_refl st1)).
      rewrite sent_since_same. cbn [app]. split; [exact Hk | exact I].
Qed.
End Runs.

Section Params.
Context `{L : Libs}.

Lemma dict_get_set_ne {V} (k k' : string) (v : V) (d : list (string * V)) :
  k <> k' -> dict_get k (dict_set k' v d) = dict_get k d.
Proof.
  intro Hne. assert (Hkk : String.eqb k k' = false) by (apply String.eqb_neq; exact Hne).
  induction d as [| [k0 v0] d IH]; simpl.
  - rewrite Hkk. reflexivity.
  - destruct (String.eqb k' k0) eqn:E; simpl.
    + apply String.eqb_eq in E. subst k0. rewrite Hkk. reflexivity.
    + destruct (String.eqb k k0); [reflexivity | exact IH].
Qed.

Lemma dict_get_absent {V} (k : string) (d : list (string * V)) :
  ~ In k (map fst d) -> dict_get k d = None.
Proof.
  induction d as [| [k0 v0] d IH]; simpl; [reflexivity |].
  intro H. destruct (String.eqb k k0) eqn:E.
  - apply String.eqb_eq in E. subst. exfalso. apply H. left; reflexivity.
  - apply IH. intro Hin. apply H. right; exact Hin.
Qed.

(** A dictionary after [update]: the other's value where it has one. *)
Lemma dict_get_update {V} (k : string) (other : list (string * V)) :
  NoDup (map fst other) ->
  forall d : list (string * V),
    dict_get k (dict_update d other) =
      match dict_get k other with
      | Some v => Some v
      | None => dict_get k d
      end.
Proof.
  unfold dict_update.
  induction other as [| [k0 v0] other IH]; intros Hnd d; simpl; [reflexivity |].
  apply NoDup_cons in Hnd. destruct Hnd as [Hnotin Hnd].
  rewrite (IH Hnd). destruct (String.eqb k k0) eqn:E.
  - apply String.eqb_eq in E. subst k0.
    rewrite (dict_get_absent k other).
    + apply dict_get_set_eq.
    + intro Hin. apply Hnotin. apply list_elem_of_In. exact Hin.
  - destruct (dict_get k other); [reflexivity |].
    apply dict_get_set_ne. apply String.eqb_neq. exact E.
Qed.

Lemma later_fetches_pages (reqs : list Request) :
  forall (params : list (string * pyval)) (n : Z),
    later_fetches params reqs ->
    dict_get "page" params = Some (PInt n) ->
    forall (i : nat) (r : Request),
      nth_error reqs i = Some r -> req_page r = Some (PInt (n + 1 + Z.of_nat i)).
Proof.
  induction reqs as [| r0 reqs IH]; intros params n Hl Hp i r Hi.
  - destruct i; discriminate.
  - destruct Hl as [page [page' [Hpage [Hadd [_ [_ [Hk Hl]]]]]]].
    rewrite Hp in Hpage. inversion Hpage; subst page. simpl in Hadd. inversion Hadd; subst page'.
    destruct i as [| i]; simpl in Hi.
    + inversion Hi; subst r. unfold req_page. rewrite Hk. simpl.
      rewrite dict_get_set_eq. f_equal. f_equal. lia.
    + rewrite (IH _ (n + 1) Hl (dict_get_set_eq _ _ _) i r Hi). f_equal. f_equal. lia.
Qed.

Lemma later_fetches_keep (k : string) (reqs : list Request) :
  k <> "page"%string ->
  forall params : list (string * pyval),
    later_fetches params reqs ->
    Forall (fun r => dict_get k (req_params r) = dict_get k params) reqs.
Proof.
  intro Hne. induction reqs as [| r0 reqs IH]; intros params Hl; [constructor |].
  destruct Hl as [page [page' [_ [_ [_ [_ [Hk Hl]]]]]]]. constructor.
  - unfold req_params. rewrite Hk. simpl. apply dict_get_set_ne. exact Hne.
  - specialize (IH _ Hl). eapply Forall_impl; [exact IH |].
    intros r Hr. simpl in Hr. rewrite Hr. apply dict_get_set_ne. exact Hne.
Qed.

(** X23: the page asked for goes up by one with every fetch.  When the
    first page is the integer [n] (1, unless the caller's [params] name a
    [page]), the fetch number [i] of a run, counted from 0, asks for page
    [n + i]. *)
Theorem get_paged_asks_for_consecutive_pages :
  forall (catches : exn -> bool) (self : ElectronBond) (url : string) (args : list pyval)
         (kwargs : list (string * pyval)) (fuel : nat) (st : State)
         (n : Z) (i : nat) (r : Request),
    NoDup (map fst (caller_params kwargs)) ->
    match dict_get "page" (caller_params kwargs) with
    | Some v => v
    | None => PInt 1
    end = PInt n ->
    nth_error (sent_since st (snd (consume catches fuel self (get_paged url args kwargs) st)))
              i = Some r ->
    req_page r = Some (PInt (n + Z.of_nat i)).
Proof.
  intros catches self url args kwargs fuel st n i r Hnd Hstart Hi.
  pose proof (run_fetches catches self url args kwargs fuel st) as Hrun.
  destruct (initial_params kwargs) as [[params0 kwargs'] | e] eqn:Hinit.
  - destruct (initial_params_eq kwargs params0 kwargs' Hinit) as [Hp0 _].
    assert (Hpage : dict_get "page" params0 = Some (PInt n)).
    { rewrite Hp0, (dict_get_update "page" _ Hnd).
      destruct (dict_get "page" (caller_params kwargs)); simpl; congruence. }
    destruct (sent_since st _) as [| first later]; [destruct i; discriminate |].
    destruct Hrun as [Hk Hl]. destruct i as [| i]; simpl in Hi.
    + inversion Hi; subst r. unfold req_page. rewrite Hk. simpl.
      rewrite Hpage. f_equal. f_equal. lia.
    + rewrite (later_fetches_pages later params0 n Hl Hpage i r Hi). f_equal. f_equal. lia.
  - rewrite Hrun in Hi. destruct i; discriminate.
Qed.

(** X24: the caller's query parameters travel with every fetch.  For
    every key but [page], each request of a run carries in [params] what
    the caller's [params] had under that key, and nothing when it had
    nothing. *)
Theorem get_paged_keeps_caller_params :
  forall (catches : exn -> bool) (self : ElectronBond) (url : string) (args : list pyval)
         (kwargs : list (string * pyval)) (fuel : nat) (st : State) (k : string),
    NoDup (map fst (caller_params kwargs)) ->
    k <> "page"%string ->
    Forall (fun r => dict_get k (req_params r) = dict_get k (caller_params kwargs))
           (sent_since st (snd (consume catches fuel self (get_paged url args kwargs) st))).
Proof.
  intros catches self url args kwargs fuel st k Hnd Hne.
  pose proof (run_fetches catches self url args kwargs fuel st) as Hrun.
  destruct (initial_params kwargs) as [[params0 kwargs'] | e] eqn:Hinit.
  - destruct (initial_params_eq kwargs params0 kwargs' Hinit) as [Hp0 _].
    assert (Hk0 : dict_get k params0 = dict_get k (caller_params kwargs)).
    { rewrite Hp0, (dict_get_update k _ Hnd).
      destruct (dict_get k (caller_params kwargs)); [reflexivity |].
      simpl. apply String.eqb_neq in Hne. rewrite Hne. reflexivity. }
    destruct (sent_since st _) as [| first later]; [constructor |].
    destruct Hrun as [Hk Hl]. constructor.
    + unfold req_params. rewrite Hk. simpl. exact Hk0.
    + pose proof (later_fetches_keep k later Hne params0 Hl) as Hkeep.
      eapply Forall_impl; [exact Hkeep |]. intros r Hr. simpl in Hr. congruence.
  - rewrite Hrun. constructor.
Qed.
End Params.

(** ** The two source files *)

Section TwoFiles.
Context `{L : Libs}.

Lemma while_head_same (url : string) (params : list (string * pyval)) (j : pyval)
      (st : State) :
  while_head isinstance_Exception url params j st = while_head bare_except url params j st.
Proof.
  unfold while_head, in_try, try_except, bind, lift.
  destruct j; try reflexivity. simpl.
  destruct (dict_get "results" kvs) as [v |]; [| reflexivity].
  destruct v; cbn [py_items]; try reflexivity;
    match goal with
    | |- context [match ?a with [] => _ | _ :: _ => _ end] => destruct a
    end; reflexivity.
Qed.

Lemma in_try_bind_cases {A B} (cj : pyval) (m : M A) (k1 k2 : A -> M B) (st : State) :
  (forall a st', k1 a st' = k2 a st') ->
  bind (in_try isinstance_Exception cj m) k1 st = bind (in_try bare_except cj m) k2 st \/
  exists e,
    fst (bind (in_try isinstance_Exception cj m) k1 st) = Raise e /\
    isinstance_Exception e = false /\
    fst (bind (in_try bare_except cj m) k2 st) = Raise (ReturnError_for cj).
Proof.
  intro Hk. unfold bind, in_try, try_except, raise, bare_except.
  destruct (m st) as [[a | e] st1].
  - left. apply Hk.
  - destruct (isinstance_Exception e) eqn:He.
    + left. reflexivity.
    + right. exists e. split; [reflexivity | split; [exact He | reflexivity]].
Qed.

(** X25: the [get_paged] of client/web_client.py and that of client.py
    take the same step from the same state, with the same result and the
    same effect, except when an exception that is not an instance of
    [Exception] (a [KeyboardInterrupt], say) is raised inside the [try]:
    client.py lets it through, the bare [except] of web_client.py turns it
    into an [ElectronBondReturnError] too. *)
Theorem web_client_differs_on_non_Exceptions_only :
  forall (self : ElectronBond) (g : generator) (st : State),
    client_next self g st = web_client_next self g st \/
    exists e, fst (client_next self g st) = Raise e /\ isinstance_Exception e = false /\
              exists current_json,
                fst (web_client_next self g st) = Raise (ReturnError_for current_json).
Proof.
  intros self g st. unfold client_next, web_client_next.
  destruct g as [url args kwargs | url params cj [| obj pending] |]; cbn [generator_next].
  - left. unfold bind, lift.
    destruct (initial_params kwargs) as [pk | e]; [| reflexivity].
    destruct (get self url [] _ st) as [[resp | e] st1]; [| reflexivity].
    destruct (Response_json resp) as [j | e]; [| reflexivity].
    apply while_head_same.
  - unfold after_for.
    destruct (in_try_bind_cases cj
                (next <- lift (py_get cj "next") ;;
                 if negb (truthy next) then ret None
                 else
                   page <- lift (dict_getitem params "page") ;;
                   page' <- lift (py_iadd1 page) ;;
                   current_page <-
                     get self url [] [("params"%string, PDict (dict_set "page" page' params))] ;;
                   current_json' <- lift (Response_json current_page) ;;
                   ret (Some (dict_set "page" page' params, current_json')))
                (fun fetched =>
                   match fetched with
                   | None => ret None
                   | Some (params', current_json') =>
                       while_head isinstance_Exception url params' current_json'
                   end)
                (fun fetched =>
                   match fetched with
                   | None => ret None
                   | Some (params', current_json') =>
                       while_head bare_except url params' current_json'
                   end) st) as [Heq | [e [H1 [H2 H3]]]].
    + intros [[params' j'] |] st'; [apply while_head_same | reflexivity].
    + left. exact Heq.
    + right. exists e. split; [exact H1 | split; [exact H2 |]]. exists cj. exact H3.
  - left. reflexivity.
  - left. reflexivity.
Qed.
End TwoFiles.

(** ** No cap on the pages *)

Section Endless.
Context `{L : Libs}.
Variable catches : exn -> bool.

Lemma get_forever (inv : World -> Prop) (j : pyval) (self : ElectronBond) (url b : string)
      (p : ParseResult) (kwargs : list (string * pyval)) (st : State) :
  serves_forever inv j ->
  inv (st_world st) ->
  config self !! "baseurl" = Some b ->
  urlparse url = Ok p ->
  exists resp st1,
    get self url [] kwargs st = (Ok resp, st1) /\ json_loads (text resp) = Ok j /\
    inv (st_world st1).
Proof.
  intros Hserves Hinv Hb Hp. unfold get.
  rewrite (http_meth_factory_eq "get" self url [] kwargs st b p Hb Hp). cbv zeta.
  set (req := mkRequest "get" _ _ _ _).
  destruct (Hserves (st_world st) req Hinv eq_refl) as [resp [w' [Hsend [Hjson Hinv']]]].
  exists resp. eexists. rewrite Hsend. cbn [fst snd].
  split; [reflexivity | split; [exact Hjson | exact Hinv']].
Qed.

Lemma endless_from_suspended (inv : World -> Prop) (self : ElectronBond) (url b : string)
      (p : ParseResult) (kvs : list (string * pyval)) (obj : pyval) (rs : list pyval) :
  serves_forever inv (PDict kvs) ->
  config self !! "baseurl" = Some b ->
  urlparse url = Ok p ->
  dict_get "results" kvs = Some (PList (obj :: rs)) ->
  page_has_next (PDict kvs) = true ->
  forall (fuel : nat) (pending : list pyval) (params : list (string * pyval)) (n : Z)
         (st : State),
    inv (st_world st) ->
    dict_get "page" params = Some (PInt n) ->
    exists items g st',
      consume catches fuel self (GenSuspended url params (PDict kvs) pending) st =
        ((items, Unfinished g), st') /\
      length items = fuel.
Proof.
  intros Hserves Hb Hp Hrs Hn.
  induction fuel as [| fuel IH]; intros pending params n st Hinv Hpage; cbn [consume].
  - eexists; eexists; eexists. split; reflexivity.
  - destruct pending as [| o pending]; cbn [generator_next].
    + destruct (get_forever inv (PDict kvs) self url b p
                  [("params"%string, PDict (dict_set "page" (PInt (n + 1)) params))] st
                  Hserves Hinv Hb Hp) as [resp [st1 [Hget [Hjson Hinv1]]]].
      rewrite (after_for_next catches self url params kvs st st1 n resp (PDict kvs)
                 Hn Hpage Hget Hjson).
      rewrite (while_head_wf catches url _ kvs (obj :: rs) st1 Hrs).
      destruct (IH rs (dict_set "page" (PInt (n + 1)) params) (n + 1) st1 Hinv1
                   (dict_get_set_eq _ _ _)) as [items [g [st' [Hrun Hlen]]]].
      rewrite Hrun. eexists; eexists; eexists. split; [reflexivity |].
      cbn [length]. rewrite Hlen. reflexivity.
    + unfold ret.
      destruct (IH pending params n st Hinv Hpage) as [items [g [st' [Hrun Hlen]]]].
      rewrite Hrun. eexists; eexists; eexists. split; [reflexivity |].
      cbn [length]. rewrite Hlen. reflexivity.
Qed.

(** X26: [get_paged] has no cap on the number of pages.  Against a
    service that answers every [get] with a page of non-empty [results] and
    a truthy [next], the generator never ends: however many items the
    consumer asks for, it gets that many and the generator is still
    unfinished. *)
Theorem get_paged_has_no_page_cap :
  forall (inv : World -> Prop) (self : ElectronBond) (url b : string) (p : ParseResult)
         (args : list pyval) (kwargs params0 kwargs' : list (string * pyval)) (n : Z)
         (kvs : list (string * pyval)) (obj : pyval) (rs : list pyval)
         (st : State) (fuel : nat),
    config self !! "baseurl" = Some b ->
    urlparse url = Ok p ->
    initial_params kwargs = Ok (params0, kwargs') ->
    dict_get "page" params0 = Some (PInt n) ->
    serves_forever inv (PDict kvs) ->
    inv (st_world st) ->
    dict_get "results" kvs = Some (PList (obj :: rs)) ->
    page_has_next (PDict kvs) = true ->
    exists items g st',
      consume catches fuel self (get_paged url args kwargs) st =
        ((items, Unfinished g), st') /\
      length items = fuel.
Proof.
  intros inv self url b p args kwargs params0 kwargs' n kvs obj rs st fuel
         Hb Hp Hinit Hpage Hserves Hinv Hrs Hn.
  destruct fuel as [| fuel]; cbn [consume].
  - eexists; eexists; eexists. split; reflexivity.
  - destruct (get_forever inv (PDict kvs) self url b p
                (("params"%string, PDict params0) :: kwargs') st Hserves Hinv Hb Hp)
      as [resp [st1 [Hget [Hjson Hinv1]]]].
    unfold get_paged. cbn [generator_next]. unfold bind, lift.
    rewrite Hinit. cbn [fst snd]. rewrite Hget. unfold Response_json. rewrite Hjson.
    rewrite (while_head_wf catches url params0 kvs (obj :: rs) st1 Hrs).
    destruct (endless_from_suspended inv self url b p kvs obj rs Hserves Hb Hp Hrs Hn
                fuel rs params0 n st1 Hinv1 Hpage) as [items [g [st' [Hrun Hlen]]]].
    rewrite Hrun. eexists; eexists; eexists. split; [reflexivity |].
    cbn [length]. rewrite Hlen. reflexivity.
Qed.
End Endless.

(** ** The further statements at concrete inputs *)

(** A [get] on a client without [baseurl]. *)
Lemma proxy_verb_without_target_witness :
  @http_meth_factory Mock.api "get" Fixtures.no_baseurl "objects/" [] []
                     (Mock.st0 Mock.api 0%nat) =
    (Raise (KeyError_of "baseurl"), Mock.st0 Mock.api 0%nat).
Proof.
  exact (@proxy_verb_without_target Mock.api "get" Fixtures.no_baseurl "objects/" [] []
           (Mock.st0 Mock.api 0%nat) eq_refl).
Defined.

Lemma proxy_verb_joins_with_one_slash_witness :
  exists base rest cut_b cut_p,
    sent_since (Mock.st0 Mock.api 0%nat)
               (snd (@http_meth_factory Mock.api "get" Mock.self
                       "http://evil.example//objects/7?x=1" [] []
                       (Mock.st0 Mock.api 0%nat))) =
      [mkRequest "get" (base +:+ "/" +:+ rest) [] []
                 (@st_headers Mock.api (Mock.st0 Mock.api 0%nat))] /\
    "http://api.example/"%string = base +:+ cut_b /\
    "//objects/7"%string = cut_p +:+ rest /\
    str_forallb Fixtures.is_slash cut_b = true /\
    str_forallb Fixtures.is_slash cut_p = true /\
    last_char base <> Some Fixtures.slash /\
    first_char rest <> Some Fixtures.slash.
Proof.
  apply (@proxy_verb_joins_with_one_slash Mock.api "get" Mock.self
           "http://evil.example//objects/7?x=1" [] [] (Mock.st0 Mock.api 0%nat)
           "http://api.example/" (mkParseResult "http" "" "//objects/7" "" "" "")).
  - vm_compute; reflexivity.
  - vm_compute; reflexivity.
Defined.

(** [baseurl] with three slashes and a path with a leading slash: the
    same call as with one and none. *)
Lemma proxy_verb_ignores_extra_slashes_witness :
  @http_meth_factory Mock.api "get" Fixtures.slashy "/objects/7" [] []
                     (Mock.st0 Mock.api 0%nat) =
  @http_meth_factory Mock.api "get" Mock.self "objects/7" [] [] (Mock.st0 Mock.api 0%nat).
Proof.
  apply (@proxy_verb_ignores_extra_slashes Mock.api "get" Mock.self Fixtures.slashy
           "objects/7" "/objects/7" [] [] (Mock.st0 Mock.api 0%nat)
           "http://api.example/" "//" "/"
           (mkParseResult "" "" "objects/7" "" "" "")
           (mkParseResult "" "" "/objects/7" "" "" "")).
  - vm_compute; reflexivity.
  - vm_compute; reflexivity.
  - reflexivity.
  - reflexivity.
  - reflexivity.
  - reflexivity.
  - reflexivity.
Defined.

(** [Accept] across an [authorize] and a [get]. *)
Lemma only_Authorization_is_written_witness :
  st_headers (@run_session_ops Mock.api isinstance_Exception Mock.self
                [SAuthorize; SClient (OpVerb "get" "objects/" [] [])]
                (Mock.st0 Mock.api 0%nat)) !! "Accept" =
    Some "application/json"%string /\
  Forall (fun r => req_headers r !! "Accept" = Some "application/json"%string)
         (sent_since (Mock.st0 Mock.api 0%nat)
            (@run_session_ops Mock.api isinstance_Exception Mock.self
               [SAuthorize; SClient (OpVerb "get" "objects/" [] [])]
               (Mock.st0 Mock.api 0%nat))).
Proof.
  apply (@only_Authorization_is_written Mock.api isinstance_Exception Mock.self
           [SAuthorize; SClient (OpVerb "get" "objects/" [] [])]
           (Mock.st0 Mock.api 0%nat) "Accept").
  vm_compute. discriminate.
Defined.

Lemma authorize_missing_configuration_witness :
  @authorize Mock.api Fixtures.no_baseurl (Mock.st0 Mock.api 0%nat) =
    (Raise (Exn KeyError "'baseurl'"), Mock.st0 Mock.api 0%nat).
Proof.
  apply (@authorize_missing_configuration Mock.api Fixtures.no_baseurl
           (Mock.st0 Mock.api 0%nat) "baseurl").
  vm_compute; reflexivity.
Defined.

(** Status 200 and an HTML body: the decode error, not an
    [ElectronBondAuthError]. *)
Lemma authorize_malformed_body_is_not_AuthError_witness :
  fst (@authorize Fixtures.not_json Mock.self (Mock.st0 Fixtures.not_json 0%nat)) =
    Raise (Exn (LibException "JSONDecodeError") "Expecting value").
Proof.
  rewrite (@authorize_malformed_body_is_not_AuthError Fixtures.not_json Mock.self
             (Mock.st0 Fixtures.not_json 0%nat) "http://api.example/" "u" "p"
             (mkResponse 200 "<html>") 1%nat
             (Exn (LibException "JSONDecodeError") "Expecting value")).
  - reflexivity.
  - vm_compute; reflexivity.
  - vm_compute; reflexivity.
  - vm_compute; reflexivity.
  - reflexivity.
  - left; reflexivity.
  - reflexivity.
Defined.

Lemma authorize_transport_error_propagates_witness :
  fst (@authorize Fixtures.unreachable Mock.self (Mock.st0 Fixtures.unreachable 0%nat)) =
    Raise Mock.ConnectionError.
Proof.
  rewrite (@authorize_transport_error_propagates Fixtures.unreachable Mock.self
             (Mock.st0 Fixtures.unreachable 0%nat) "http://api.example/" "u" "p"
             Mock.ConnectionError 1%nat).
  - reflexivity.
  - vm_compute; reflexivity.
  - vm_compute; reflexivity.
  - vm_compute; reflexivity.
  - reflexivity.
Defined.

(** A [ValueError] of the OAuth client comes out as an
    [ElectronBondAuthError]. *)
Lemma authorize_oauth_error_kinds_witness :
  (exists e0,
      Exn ElectronBondAuthError "Failed to authorize OAuth with message: invalid client_id" =
      Exn ElectronBondAuthError ("Failed to authorize OAuth with message: " +:+ exn_str e0)) \/
  Exn ElectronBondAuthError "Failed to authorize OAuth with message: invalid client_id" =
    KeyError_of "access_token" \/
  isinstance_Exception
    (Exn ElectronBondAuthError "Failed to authorize OAuth with message: invalid client_id") =
    false.
Proof.
  apply (@authorize_oauth_error_kinds Fixtures.bad_oauth_client Mock.self
           (Mock.st0 Fixtures.bad_oauth_client 0%nat)).
  vm_compute; reflexivity.
Defined.

Lemma authorize_oauth_missing_configuration_witness :
  @authorize_oauth Mock.api Fixtures.half_oauth (Mock.st0 Mock.api 0%nat) =
    (Raise (Exn ElectronBondAuthError
                "Failed to authorize OAuth with message: 'oauth_client_baseurl'"),
     Mock.st0 Mock.api 0%nat).
Proof.
  apply (@authorize_oauth_missing_configuration Mock.api Fixtures.half_oauth
           (Mock.st0 Mock.api 0%nat) "oauth_client_baseurl").
  - vm_compute; reflexivity.
  - intros cid _. exists tt, tt. split; reflexivity.
Defined.

Lemma authorize_oauth_returns_access_token_witness :
  @authorize_oauth Fixtures.granted Mock.self (Mock.st0 Fixtures.granted 0%nat) =
    (Ok (PStr "xyz"),
     @mkState Fixtures.granted
              (<["Authorization" := "Bearer xyz"]>
               (@st_headers Fixtures.granted (Mock.st0 Fixtures.granted 0%nat)))
              1%nat []).
Proof.
  apply (@authorize_oauth_returns_access_token Fixtures.granted Mock.self
           (Mock.st0 Fixtures.granted 0%nat) "id" "http://auth.example" "secret" tt tt
           [("access_token"%string, PStr "xyz"); ("token_type"%string, PStr "Bearer")]
           1%nat (PStr "xyz")).
  - vm_compute; reflexivity.
  - vm_compute; reflexivity.
  - vm_compute; reflexivity.
  - reflexivity.
  - reflexivity.
  - reflexivity.
  - reflexivity.
Defined.


(** [params] given as a list. *)
Lemma params_must_be_a_mapping_witness :
  exists e,
    @generator_next Mock.two_pages isinstance_Exception Mock.self
      (get_paged "objects/" [] [("params"%string, PList [])])
      (Mock.st0 Mock.two_pages 0%nat) = (Raise e, Mock.st0 Mock.two_pages 0%nat) /\
    exn_cls e = TypeError.
Proof.
  apply (@params_must_be_a_mapping Mock.two_pages isinstance_Exception Mock.self
           "objects/" [] [("params"%string, PList [])] (PList [])
           (Mock.st0 Mock.two_pages 0%nat)).
  - reflexivity.
  - intros given H. discriminate H.
Defined.

(** A page whose [results] is the string [ab]: its characters are the
    items. *)
Lemma readable_page_is_not_rejected_witness :
  exists url params results items,
    generator_url (get_paged "objects/" [] []) = Some url /\
    py_getitem Fixtures.page_of_text "results" = Ok results /\
    py_items results = Ok items /\
    @generator_next Fixtures.text_libs isinstance_Exception Mock.self
      (get_paged "objects/" [] []) (Mock.st0 Fixtures.text_libs 0%nat) =
      (Ok match items with
          | [] => None
          | obj :: rest => Some (obj, GenSuspended url params Fixtures.page_of_text rest)
          end,
       snd (@get Fixtures.text_libs Mock.self "objects/" []
                 [("params"%string, PDict [("page"%string, PInt 1)])]
                 (Mock.st0 Fixtures.text_libs 0%nat))).
Proof.
  apply (@readable_page_is_not_rejected Fixtures.text_libs isinstance_Exception Mock.self
           (get_paged "objects/" [] []) (Mock.st0 Fixtures.text_libs 0%nat)).
  - apply (@reads_first Fixtures.text_libs Mock.self "objects/" [] []
             ([("page"%string, PInt 1)], []) (mkResponse 200 "text_page")); reflexivity.
  - reflexivity.
Defined.

Example string_results_yield_characters :
  fst (@client_consume Fixtures.text_libs 5 Mock.self (get_paged "objects/" [] [])
                       (Mock.st0 Fixtures.text_libs 0%nat)) =
    ([PStr "a"; PStr "b"], Exhausted).
Proof. vm_compute. reflexivity. Qed.

(** [page] given as the string [2]. *)
Lemma page_that_cannot_be_incremented_witness :
  @client_next Mock.two_pages Mock.self
    (GenSuspended "objects/" [("page"%string, PStr "2")] Mock.page1 [])
    (Mock.st0 Mock.two_pages 0%nat) =
    (Raise (@ReturnError_for Mock.two_pages Mock.page1), Mock.st0 Mock.two_pages 0%nat) /\
  @web_client_next Mock.two_pages Mock.self
    (GenSuspended "objects/" [("page"%string, PStr "2")] Mock.page1 [])
    (Mock.st0 Mock.two_pages 0%nat) =
    (Raise (@ReturnError_for Mock.two_pages Mock.page1), Mock.st0 Mock.two_pages 0%nat).
Proof.
  apply (@page_that_cannot_be_incremented Mock.two_pages Mock.self "objects/"
           [("page"%string, PStr "2")] Mock.page1
           (PStr "http://api.example/objects/?page=2") (PStr "2")
           (Exn TypeError "unsupported operand type(s) for +=")
           (Mock.st0 Mock.two_pages 0%nat)).
  - reflexivity.
  - reflexivity.
  - reflexivity.
  - reflexivity.
Defined.

(** The second fetch of the two-page run asks for page 2. *)
Lemma get_paged_asks_for_consecutive_pages_witness :
  req_page (mkRequest "get" "http://api.example/objects/" []
              [("params"%string, PDict [("page"%string, PInt 2)])]
              (@st_headers Mock.two_pages (Mock.st0 Mock.two_pages 0%nat))) =
    Some (PInt (1 + Z.of_nat 1)).
Proof.
  apply (@get_paged_asks_for_consecutive_pages Mock.two_pages isinstance_Exception
           Mock.self "objects/" [] [] 4%nat (Mock.st0 Mock.two_pages 0%nat) 1 1%nat).
  - constructor.
  - reflexivity.
  - vm_compute; reflexivity.
Defined.

(** [q=a] travels with both fetches. *)
Lemma get_paged_keeps_caller_params_witness :
  Forall (fun r => dict_get "q" (req_params r) = Some (PStr "a"))
         (sent_since (Mock.st0 Mock.two_pages 0%nat)
            (snd (@consume Mock.two_pages isinstance_Exception 4 Mock.self
                    (get_paged "objects/" []
                       [("params"%string, PDict [("q"%string, PStr "a")]);
                        ("timeout"%string, PInt 3)])
                    (Mock.st0 Mock.two_pages 0%nat)))).
Proof.
  apply (@get_paged_keeps_caller_params Mock.two_pages isinstance_Exception Mock.self
           "objects/" []
           [("params"%string, PDict [("q"%string, PStr "a")]); ("timeout"%string, PInt 3)]
           4%nat (Mock.st0 Mock.two_pages 0%nat) "q").
  - repeat constructor. simpl. intro H. apply elem_of_nil in H. exact H.
  - discriminate.
Defined.

Lemma endless_serves_forever : @serves_forever Fixtures.endless (fun _ => True) Mock.page1.
Proof.
  intros w r _ _. exists (mkResponse 200 "page1"), (S w).
  split; [reflexivity | split; [reflexivity | exact I]].
Defined.

(** Seven items asked of the endless server: seven given, and more to
    come. *)
Lemma get_paged_has_no_page_cap_witness :
  exists items g st',
    @consume Fixtures.endless isinstance_Exception 7 Mock.self (get_paged "objects/" [] [])
             (Mock.st0 Fixtures.endless 0%nat) = ((items, Unfinished g), st') /\
    length items = 7%nat.
Proof.
  apply (@get_paged_has_no_page_cap Fixtures.endless isinstance_Exception (fun _ => True)
           Mock.self "objects/" "http://api.example/"
           (mkParseResult "" "" "objects/" "" "" "") [] [] [("page"%string, PInt 1)] [] 1
           [("results"%string, PList [PInt 1; PInt 2]);
            ("next"%string, PStr "http://api.example/objects/?page=2")]
           (PInt 1) [PInt 2] (Mock.st0 Fixtures.endless 0%nat) 7%nat).
  - vm_compute; reflexivity.
  - reflexivity.
  - reflexivity.
  - reflexivity.
  - exact endless_serves_forever.
  - exact I.
  - reflexivity.
  - reflexivity.
Defined.

(** * What each fetch of [get_paged] carries *)

Section Carried.
Context `{L : Libs}.
Variable catches : exn -> bool.

Lemma dict_get_del_ne {V} (k k' : string) (d : list (string * V)) :
  k <> k' -> dict_get k (dict_del k' d) = dict_get k d.
Proof.
  intro Hne. induction d as [| [k0 v0] d IH]; simpl; [reflexivity |].
  destruct (String.eqb k' k0) eqn:E.
  - apply String.eqb_eq in E. subst k0.
    apply String.eqb_neq in Hne. rewrite Hne. exact IH.
  - simpl. destruct (String.eqb k k0); [reflexivity | exact IH].
Qed.

(** A request of the chain of later fetches, by its position. *)
Lemma later_fetches_at (reqs : list Request) :
  forall (params : list (string * pyval)),
    later_fetches params reqs ->
    forall (i : nat) (r : Request),
      nth_error reqs i = Some r ->
      exists params_i,
        req_meth r = "get"%string /\ req_args r = [] /\
        req_kwargs r = [("params"%string, PDict params_i)] /\
        (forall k, k <> "page"%string -> dict_get k params_i = dict_get k params) /\
        (forall n, dict_get "page" params = Some (PInt n) ->
                   dict_get "page" params_i = Some (PInt (n + 1 + Z.of_nat i))).
Proof.
  induction reqs as [| r0 reqs IH]; intros params Hl i r Hi.
  - destruct i; discriminate.
  - destruct Hl as [page [page' [Hpage [Hadd [Hm [Ha [Hk Hl]]]]]]].
    destruct i as [| i]; simpl in Hi.
    + inversion Hi; subst r. exists (dict_set "page" page' params).
      split; [exact Hm | split; [exact Ha | split; [exact Hk | split]]].
      * intros k Hne. apply dict_get_set_ne. exact Hne.
      * intros n Hn. rewrite Hn in Hpage. inversion Hpage; subst page.
        simpl in Hadd. inversion Hadd; subst page'.
        rewrite dict_get_set_eq. f_equal. f_equal. lia.
    + destruct (IH _ Hl i r Hi) as [params_i [Hm' [Ha' [Hk' [Hkeep Hnum]]]]].
      exists params_i.
      split; [exact Hm' | split; [exact Ha' | split; [exact Hk' | split]]].
      * intros k Hne. rewrite (Hkeep k Hne). apply dict_get_set_ne. exact Hne.
      * intros n Hn. rewrite Hn in Hpage. inversion Hpage; subst page.
        simpl in Hadd. inversion Hadd; subst page'.
        rewrite (Hnum (n + 1) (dict_get_set_eq _ _ _)). f_equal. f_equal. lia.
Qed.

(** The first [next] of a generator whose URL has a target and whose
    [params] are acceptable always makes the first fetch, whatever the
    answer. *)
Lemma first_next_fetches (self : ElectronBond) (url b : string) (p : ParseResult)
      (args : list pyval) (kwargs params0 kwargs' : list (string * pyval)) (st : State) :
  config self !! "baseurl" = Some b ->
  urlparse url = Ok p ->
  initial_params kwargs = Ok (params0, kwargs') ->
  st_sent (snd (generator_next catches self (get_paged url args kwargs) st)) =
    st_sent st ++
      [mkRequest "get" (rstrip "/" b +:+ "/" +:+ lstrip "/" (path p)) []
                 (("params"%string, PDict params0) :: kwargs') (st_headers st)].
Proof.
  intros Hb Hp Hinit. unfold get_paged, generator_next, bind, lift, get.
  rewrite Hinit. cbn [fst snd].
  rewrite (http_meth_factory_eq "get" self url [] _ st b p Hb Hp). cbv zeta.
  destruct (session_send _ _) as [[resp | e] w']; cbn [fst snd]; [| reflexivity].
  destruct (Response_json resp) as [j | e]; [| reflexivity].
  set (st1 := mkState _ _ _).
  pose proof (while_head_cases catches url params0 j st1) as [Hw _].
  rewrite Hw. reflexivity.
Qed.

(** C8: a consumer of [get_paged] that asks for at least one item, on a
    client with a [baseurl], for a URL that parses and with [params] absent
    or a mapping, causes a first fetch and possibly later ones.  The first
    is a [get] of the prefixed URL without positional arguments; its
    [params] holds every key of the caller's [params] with the caller's
    value and [page] with 1 unless the caller gave a [page]; its other
    keyword arguments are the caller's, [params] not among them.  Every
    later fetch is a [get] without positional arguments whose only keyword
    argument is [params], equal to the first fetch's on every key but
    [page], and with [page] one more than in the fetch before (for an
    integer first page [n], the later fetch number [i], from 0, has
    [n + 1 + i]).  Against a server that holds well-formed pages one of
    which is the last, the fetches made are as many as the pages read. *)
Theorem get_paged_forwards_params :
  forall (self : ElectronBond) (url b : string) (p : ParseResult) (args : list pyval)
         (kwargs : list (string * pyval)) (fuel : nat) (st : State),
    config self !! "baseurl" = Some b ->
    urlparse url = Ok p ->
    (forall v, dict_get "params" kwargs = Some v -> exists given, v = PDict given) ->
    NoDup (map fst (caller_params kwargs)) ->
    (0 < fuel)%nat ->
    exists (first : Request) (later : list Request) (params0 kwargs' : list (string * pyval)),
      sent_since st (snd (consume catches fuel self (get_paged url args kwargs) st)) =
        first :: later /\
      first = mkRequest "get" (rstrip "/" b +:+ "/" +:+ lstrip "/" (path p)) []
                        (("params"%string, PDict params0) :: kwargs') (st_headers st) /\
      (forall k, dict_get k params0 =
                 match dict_get k (caller_params kwargs) with
                 | Some v => Some v
                 | None => if String.eqb k "page" then Some (PInt 1) else None
                 end) /\
      (forall k, dict_get k kwargs' =
                 if String.eqb k "params" then None else dict_get k kwargs) /\
      later_fetches params0 later /\
      (forall (i : nat) (r : Request),
          nth_error later i = Some r ->
          exists params_i,
            req_meth r = "get"%string /\ req_args r = [] /\
            req_kwargs r = [("params"%string, PDict params_i)] /\
            (forall k, k <> "page"%string -> dict_get k params_i = dict_get k params0) /\
            (forall n, dict_get "page" params0 = Some (PInt n) ->
                       dict_get "page" params_i = Some (PInt (n + 1 + Z.of_nat i)))) /\
      (forall (pages : list pyval) (n : Z),
          dict_get "page" params0 = Some (PInt n) ->
          serves (st_world st) n pages ->
          Forall well_formed_page pages ->
          has_last_page pages = true ->
          (length (paged_items pages) < fuel)%nat ->
          length (first :: later) = pages_read pages).
Proof.
  intros self url b p args kwargs fuel st Hb Hp Hmap Hnd Hfuel.
  assert (Hinit : exists params0 kwargs', initial_params kwargs = Ok (params0, kwargs')).
  { unfold initial_params, dict_contains.
    destruct (dict_get "params" kwargs) as [v |] eqn:Hget.
    - destruct (Hmap v eq_refl) as [given ->]. eexists; eexists; reflexivity.
    - eexists; eexists; reflexivity. }
  destruct Hinit as [params0 [kwargs' Hinit]].
  destruct (initial_params_eq kwargs params0 kwargs' Hinit) as [Hp0 Hk'].
  set (req := mkRequest "get" (rstrip "/" b +:+ "/" +:+ lstrip "/" (path p)) []
                        (("params"%string, PDict params0) :: kwargs') (st_headers st)).
  (* the first fetch is made *)
  assert (Hsent : exists later,
             sent_since st (snd (consume catches fuel self (get_paged url args kwargs) st)) =
             req :: later).
  { destruct fuel as [| fuel]; [lia |]. cbn [consume].
    pose proof (first_next_fetches self url b p args kwargs params0 kwargs' st Hb Hp Hinit)
      as Hfirst. fold req in Hfirst.
    destruct (generator_next catches self (get_paged url args kwargs) st)
      as [[[[obj g'] |] | e] st1]; cbn [snd] in Hfirst.
    - pose proof (frames_consume catches self fuel g' st1) as Hf.
      destruct (consume catches fuel self g' st1) as [[items e] st2]. cbn [snd] in *.
      exists (sent_since st1 st2). apply (sent_since_step st st1 st2 [req] Hfirst Hf).
    - exists []. cbn [snd]. unfold sent_since. rewrite Hfirst. apply drop_app_length.
    - exists []. cbn [snd]. unfold sent_since. rewrite Hfirst. apply drop_app_length. }
  destruct Hsent as [later Hsent].
  pose proof (run_fetches catches self url args kwargs fuel st) as Hrun.
  rewrite Hinit, Hsent in Hrun. destruct Hrun as [_ Hlater].
  exists req, later, params0, kwargs'.
  split; [exact Hsent | split; [reflexivity | split; [| split; [| split; [exact Hlater | split]]]]].
  - intro k. rewrite Hp0, (dict_get_update k _ Hnd).
    destruct (dict_get k (caller_params kwargs)); [reflexivity |]. reflexivity.
  - intro k. rewrite Hk'. destruct (String.eqb k "params") eqn:E.
    + apply String.eqb_eq in E. subst k. apply dict_get_del.
    + apply dict_get_del_ne. apply String.eqb_neq. exact E.
  - apply later_fetches_at. exact Hlater.
  - intros pages n Hpage Hserves Hwf Hlast Hitems.
    destruct pages as [| j rest]; [discriminate |].
    destruct (get_served self url b p params0 kwargs' st n j rest Hb Hp Hpage Hserves)
      as [resp [st1 [Hget [Hjson [Hserves' Hs1]]]]].
    assert (Hnext : generator_next catches self (get_paged url args kwargs) st =
                    while_head catches url params0 j st1).
    { unfold get_paged, generator_next, bind, lift. rewrite Hinit. cbn [fst snd].
      rewrite Hget. unfold Response_json. rewrite Hjson. reflexivity. }
    destruct (consume_pages catches self url b p Hb Hp rest j _ st st1 params0 n fuel
                            Hnext Hpage Hserves' Hwf Hlast Hitems) as [st' [Hrun Hcount]].
    rewrite <- Hsent, Hrun. cbn [snd]. unfold sent_since.
    rewrite length_drop, Hcount, Hs1, length_app. cbn [length].
    pose proof (pages_read_pos (j :: rest) ltac:(discriminate)). lia.
Qed.
End Carried.

(** The two-page run with [params={"q": "a"}] and [timeout=3]: two
    fetches; the first carries [page] 1, [q] and [timeout], the second
    [page] 2 and [q] in [params] and nothing else. *)
Lemma get_paged_forwards_params_witness :
  exists (first second : Request) (params0 params1 kwargs' : list (string * pyval)),
    sent_since (Mock.st0 Mock.two_pages 0%nat)
      (snd (@consume Mock.two_pages isinstance_Exception 4 Mock.self
              (get_paged "objects/" []
                 [("params"%string, PDict [("q"%string, PStr "a")]);
                  ("timeout"%string, PInt 3)])
              (Mock.st0 Mock.two_pages 0%nat))) = [first; second] /\
    first = mkRequest "get" "http://api.example/objects/" []
                      (("params"%string, PDict params0) :: kwargs')
                      (@st_headers Mock.two_pages (Mock.st0 Mock.two_pages 0%nat)) /\
    dict_get "page" params0 = Some (PInt 1) /\
    dict_get "q" params0 = Some (PStr "a") /\
    dict_get "timeout" kwargs' = Some (PInt 3) /\
    dict_get "params" kwargs' = None /\
    req_meth second = "get"%string /\ req_args second = [] /\
    req_kwargs second = [("params"%string, PDict params1)] /\
    dict_get "page" params1 = Some (PInt 2) /\
    dict_get "q" params1 = Some (PStr "a").
Proof.
  destruct (@get_paged_forwards_params Mock.two_pages isinstance_Exception Mock.self
              "objects/" "http://api.example/" (mkParseResult "" "" "objects/" "" "" "") []
              [("params"%string, PDict [("q"%string, PStr "a")]); ("timeout"%string, PInt 3)]
              4%nat (Mock.st0 Mock.two_pages 0%nat))
    as [first [later [params0 [kwargs' [Hsent [Hfirst [Hp0 [Hkw [_ [Hat Hcount]]]]]]]]]].
  - vm_compute; reflexivity.
  - reflexivity.
  - intros v H. vm_compute in H. inversion H. eexists; reflexivity.
  - repeat constructor. simpl. intro H. apply elem_of_nil in H. exact H.
  - lia.
  - pose proof (Hcount [Mock.page1; Mock.page2] 1 (Hp0 "page"%string) two_pages_served
                       two_pages_well_formed eq_refl ltac:(vm_compute; lia)) as Hlen.
    destruct later as [| second [| third later]]; try discriminate Hlen.
    destruct (Hat 0%nat second eq_refl) as [params1 [Hm [Ha [Hk [Hkeep Hnum]]]]].
    exists first, second, params0, params1, kwargs'.
    split; [exact Hsent |]. split; [exact Hfirst |].
    split; [exact (Hp0 "page"%string) |]. split; [exact (Hp0 "q"%string) |].
    split; [exact (Hkw "timeout"%string) |]. split; [exact (Hkw "params"%string) |].
    split; [exact Hm |]. split; [exact Ha |]. split; [exact Hk |].
    split; [exact (Hnum 1 (Hp0 "page"%string)) |].
    rewrite (Hkeep "q"%string ltac:(discriminate)). exact (Hp0 "q"%string).
Defined.
